(* ===== verification/_CoqProject ===== *)
-Q . S2P
Prelude.v
Numeric.v
Utf8.v
Message.v
Frame.v
ScalarCodec.v
ArrayCodec.v
Channel.v
Transport.v
IdRace.v
