(* ===== verification/Prelude.v ===== *)
(** * A verified model of the mixer wire protocol (src/broadcaster/common.py)

    The program.  [common.py] is the protocol layer shared by the mixer
    broadcaster server and its clients.  It has five parts, leaves first:
    - numeric conversions: [intToBytes] / [bytesToInt] (little-endian
      [int.to_bytes] / [int.from_bytes]) and the [struct] formats ['I']
      and ['f'] (native byte order);
    - ScalarCodec: [encodeBool] .. [decodeVector4] (lines 58-119), one
      encoder returning bytes and one decoder [(data, index) -> (value,
      next index)] per scalar type; strings go through UTF-8;
    - ArrayCodec: the count-prefixed arrays (lines 121-170);
    - CommandModel: the [MessageType], [LightType], [SensorFitMode] enums
      and the [Command] class with its auto-incremented class counter
      [Command._id] (lines 11-56, 218-226);
    - Frame and Transport: [writeMessage] serialises a command to a
      14-byte header plus payload and sends it in a [select]/[send] loop;
      [readMessage] polls, reads the header, loops on [recv] until the
      payload is complete and rebuilds the command (lines 172-215).
    The room-management server (outside src/) calls [readMessage] and
    [writeMessage] from one thread per client, so [Command.__init__] runs
    concurrently.

    The files, in dependency order.
    - Prelude.v (this file): bytes, the Python exceptions [exn], fallible
      code as [result] with [let!] (scope [py_scope]), Python slicing
      [py_slice] (which clips its bounds), little-endian [le_combine] /
      [le_split] and their lemmas, the hint databases [mixer] / [mixer_rw].
    - Numeric.v: [intToBytes] (raises [OverflowError] out of range),
      [bytesToInt], and a model of [struct] for ['<n>I'] and ['<n>f']:
      the native byte order is the class [Platform] with the instances
      [little_endian] and [big_endian]; a C float is its binary32 bit
      pattern [f32].
    - Utf8.v: [str.encode()] / [bytes.decode()] as an executable UTF-8
      encoder and a strict decoder on code-point lists [pystr].
    - Message.v: the enums with their [.value], [intToMessageType], the
      [Command] record and [Command_init], which threads [Command._id]
      as an explicit counter.
    - Frame.v: [frame_buffer] (the buffer of [writeMessage]),
      [parse_header] and [Command_of_frame] (the header split and the
      [Command(...)] call of [readMessage]).
    - ScalarCodec.v and ArrayCodec.v: the codec functions, one Rocq
      definition per Python function, in a Section over [Platform].
    - Channel.v: the socket as the interface [Channel] (poll for reading,
      [recv], poll for writing, [send], each of which may raise) with its
      laws [ChannelLaws]
      (recv and send never exceed their argument); the instances
      [script] (a peer given by the segments it sends, its quiet polls,
      its failures and its write capacities, recording the bytes it
      receives) and [stalled_peer] (never ready).
    - Transport.v: [readMessage] and [writeMessage] over any [Channel],
      with their two [while] loops [recv_payload] and [send_loop].
    - IdRace.v: the three bytecode steps of the unguarded
      [Command._id] increment as an interleaving step relation, against
      the atomic allocation the spec asks for.

    What the theorems show.
    - Round trips: every scalar decoder reads back what its encoder wrote
      at any offset of a larger buffer and advances by its width
      (ScalarCodec.v; the string codec rests on the UTF-8 lemmas of
      Utf8.v, which are library facts and not claims about the module);
      the array decoders read the spec's array format (ArrayCodec.v);
      [intToBytes] and [bytesToInt] are inverse (Numeric.v); a
      frame parses back to its command (Frame.v); a command written by
      [writeMessage] to a peer and delivered to [readMessage], in one
      segment or cut anywhere after the header, is read back unchanged,
      and back-to-back frames are read in order (Transport.v).
    - Error behaviour, branch by branch: [OverflowError] when an id or a
      length does not fit; [ValueError] for an unknown type code; a
      short header and a closed socket both give [ClientDisconnected];
      every failure inside [readMessage]'s [try] becomes
      [ClientDisconnected], while one of the readiness poll (line 175,
      before the [try]) escapes unchanged, and no failure touches the
      counter; a send failure escapes as [OSError]; a lone surrogate makes
      [encodeString] raise [UnicodeEncodeError].
    - The defects the model exposes (also recorded as findings): an empty
      int array raises [UnboundLocalError]; a peer that closes mid-payload
      makes [readMessage] loop for ever; a header split across [recv]
      segments is taken for a disconnection; a peer that never becomes
      writable stalls [writeMessage] for ever; [decodeString] returns an
      offset past the end of the buffer instead of failing; on a
      big-endian platform [decodeStringArray] reads the count
      [encodeStringArray] wrote for [n] strings as 2^24 * n and returns
      that many strings, the extra ones empty; a select error escapes
      [readMessage]; a frame with id 0 is given a fresh id on reception;
      after 2^32 automatic ids no command can be sent; without the lock
      two threads can obtain the same id and the counter can move
      backwards; every run of atomic allocation (the spec's contract) is
      a run of the code, the one in which no thread is interrupted.

    Fuel and bounds.  The two [while] loops of Transport.v take a fuel;
    [None] means "still looping".  A theorem that a call returns gives
    the fuel that suffices: one more than the number of [recv] segments
    of the payload (each iteration consumes at least one non-empty
    segment), and two more than the number of capacity events of the
    peer for [send_loop] (each event is used by one iteration, and after
    the last one the scripted peer takes everything).  A theorem that a
    call never returns is stated for every fuel.  The [for range(count)]
    loops are structural recursions on the count.  Integers are [Z] with
    the range checks of the code written out; the frame fields are
    8, 4 and 2 bytes wide.

    Not modelled.  The rounding of a Python float to binary32 in
    [struct.pack('f')] (floats are taken as binary32 bit patterns, which
    [struct] round-trips exactly) and NaN payloads; Python's negative
    indices (every offset here is a [nat]); the timing of [select] (a
    poll is an event of the peer's script); the [MemoryError] of a huge
    [recv]; the [print] calls of the [except] clauses; the
    room-management server and mathutils.  [readMessage]'s broad
    [except] is modelled by mapping every exception to
    [ClientDisconnected]. *)

From Stdlib Require Import ZArith Lia Init.Byte Strings.Byte.
From stdpp Require Import base list relations.

Create HintDb mixer discriminated.
Create Rewrite HintDb mixer_rw.

Open Scope Z_scope.

(** ** Bytes *)

Abbreviation byte := Init.Byte.byte.

#[export] Instance byte_eq_dec : EqDecision byte := Byte.byte_eq_dec.

Definition byte_val (b : byte) : Z := Z.of_N (Byte.to_N b).

Definition byte_of_Z (z : Z) : byte :=
  match Byte.of_N (Z.to_N (z mod 256)) with
  | Some b => b
  | None => Byte.x00
  end.

(** ** Python exceptions and fallible computations *)

(** The exceptions the module can raise or let escape.  [ClientDisconnected]
    is [ClientDisconnectedException] of common.py; the others are the
    built-in exceptions of the Python operations the module calls. *)
Inductive exn :=
  | OverflowError        (** [int.to_bytes] of a value that does not fit *)
  | StructError          (** [struct.pack] / [struct.unpack] argument error *)
  | UnicodeEncodeError   (** [str.encode] of a lone surrogate *)
  | UnicodeDecodeError   (** [bytes.decode] of ill-formed UTF-8 *)
  | ValueError           (** [MessageType(v)] of an unknown code *)
  | IndexError           (** subscript out of range *)
  | UnboundLocalError    (** read of a local never assigned *)
  | OSError              (** socket failure *)
  | ClientDisconnected.  (** [ClientDisconnectedException] *)

#[export] Instance exn_eq_dec : EqDecision exn.
Proof. solve_decision. Defined.

Inductive result (A : Type) : Type :=
  | Ok (a : A)
  | Raise (e : exn).
Arguments Ok {A} a.
Arguments Raise {A} e.

Definition rbind {A B} (m : result A) (f : A -> result B) : result B :=
  match m with
  | Ok a => f a
  | Raise e => Raise e
  end.

Definition rmap {A B} (f : A -> B) (m : result A) : result B :=
  rbind m (fun a => Ok (f a)).

Declare Scope py_scope.
Delimit Scope py_scope with py.
Notation "'let!' x ':=' m 'in' k" := (rbind m (fun x => k))
  (at level 10, x name, m at level 100, k at level 200) : py_scope.
Notation "'let!' ' p ':=' m 'in' k" := (rbind m (fun p => k))
  (at level 10, p pattern, m at level 100, k at level 200) : py_scope.
Open Scope py_scope.

(** [t[i]] on a tuple or list: [IndexError] out of range. *)
Definition py_index {A} (l : list A) (i : nat) : result A :=
  match l !! i with
  | Some a => Ok a
  | None => Raise IndexError
  end.

(** ** Python slicing of byte strings *)

(** [data[a:b]] for non-negative [a] and [b]: out-of-range bounds are
    clipped, never an error. *)
Definition py_slice (data : list byte) (a b : nat) : list byte :=
  take (b - a) (drop a data).

(** ** Little-endian integers: [int.from_bytes(_, 'little')] and
    [int.to_bytes(_, 'little')] on the value range. *)

Fixpoint le_combine (bs : list byte) : Z :=
  match bs with
  | [] => 0
  | b :: t => byte_val b + 256 * le_combine t
  end.

Fixpoint le_split (n : nat) (z : Z) : list byte :=
  match n with
  | O => []
  | S n' => byte_of_Z z :: le_split n' (z / 256)
  end.

(** ** Tactics *)

(** Case on every boolean comparison of integers in the goal, recording
    the outcome as a hypothesis [lia] can use. *)
Ltac zbool_cases :=
  repeat match goal with
  | |- context [Z.ltb ?a ?b] => destruct (Z.ltb_spec a b); simpl
  | |- context [Z.leb ?a ?b] => destruct (Z.leb_spec a b); simpl
  | |- context [Z.eqb ?a ?b] => destruct (Z.eqb_spec a b); simpl
  end.

(** Turn boolean comparisons and connectives in hypothesis [H] into
    propositions. *)
Ltac bool_to_Prop H :=
  repeat (rewrite ?Bool.andb_true_iff, ?Bool.andb_false_iff, ?Bool.negb_true_iff,
            ?Bool.negb_false_iff, ?Z.ltb_lt, ?Z.ltb_ge, ?Z.leb_le, ?Z.leb_gt,
            ?Z.eqb_eq, ?Z.eqb_neq in H).

(** Case on every [if] in hypothesis [H], discarding the branches where
    [H] equates different constructors. *)
Ltac if_cases H :=
  repeat match type of H with
  | context [if ?c then _ else _] =>
      let E := fresh "C" in
      destruct c eqn:E; bool_to_Prop E; simpl in H; try discriminate H
  end.

(** [lia] after eliminating [Z.div] and [Z.modulo] by constants. *)
Ltac zlia := Z.to_euclidean_division_equations; lia.

(** Put the range of every byte of the context in the context. *)
Ltac byte_ranges :=
  repeat match goal with
  | b : byte |- _ =>
      lazymatch goal with
      | _ : 0 <= byte_val b < 256 |- _ => fail
      | _ => assert (0 <= byte_val b < 256)
               by (unfold byte_val; pose proof (Byte.to_N_bounded b); lia)
      end
  end.

(** Rewrite with the [mixer_rw] database and simplify, everywhere. *)
Ltac py_simp := repeat (autorewrite with mixer_rw in *; simpl in *).

(** Split a hypothesis [rbind m f = Ok b] into the success of [m] and of
    its continuation. *)
Ltac rbind_inv H :=
  let a := fresh "a" in
  let Ha := fresh "Hm" in
  let Hx := fresh "Hx" in
  let H' := fresh "H" in
  match type of H with
  | rbind ?m ?f = Ok ?b =>
      assert (Hx : exists a, m = Ok a /\ f a = Ok b)
        by (destruct m; [eexists; split; [reflexivity | exact H] | discriminate H]);
      destruct Hx as [a [Ha H']]; clear H; rename H' into H; cbn beta in H
  end.

(** * Lemmas *)

(** ** Bytes *)

Lemma byte_val_range (b : byte) : 0 <= byte_val b < 256.
Proof.
  unfold byte_val. pose proof (Byte.to_N_bounded b). lia.
Qed.

Lemma byte_val_of_Z (z : Z) : byte_val (byte_of_Z z) = z mod 256.
Proof.
  unfold byte_of_Z, byte_val.
  pose proof (Z.mod_pos_bound z 256 ltac:(lia)) as Hr.
  destruct (Byte.of_N (Z.to_N (z mod 256))) as [b|] eqn:E.
  - apply Byte.to_of_N in E. rewrite E. lia.
  - apply Byte.of_N_None_iff in E. lia.
Qed.

Lemma byte_of_Z_val (b : byte) : byte_of_Z (byte_val b) = b.
Proof.
  unfold byte_of_Z, byte_val.
  rewrite Z.mod_small by (pose proof (Byte.to_N_bounded b); lia).
  rewrite N2Z.id, Byte.of_to_N. reflexivity.
Qed.

Lemma byte_of_Z_mod (z : Z) : byte_of_Z z = byte_of_Z (z mod 256).
Proof. unfold byte_of_Z. rewrite Z.mod_mod by lia. reflexivity. Qed.

Lemma byte_val_of_Z_small (z : Z) : 0 <= z < 256 -> byte_val (byte_of_Z z) = z.
Proof. intros Hz. rewrite byte_val_of_Z. apply Z.mod_small; exact Hz. Qed.

(** A byte is the image of any expression whose value is its value. *)
Lemma byte_of_Z_eq (z : Z) (b : byte) : z = byte_val b -> byte_of_Z z = b.
Proof. intros ->. apply byte_of_Z_val. Qed.

Arguments byte_val : simpl never.
Arguments byte_of_Z : simpl never.

#[export] Hint Rewrite byte_val_of_Z byte_of_Z_val : mixer_rw.
#[export] Hint Resolve byte_val_range : mixer.

(** ** Results *)

Lemma rbind_Ok {A B} (a : A) (f : A -> result B) : rbind (Ok a) f = f a.
Proof. reflexivity. Qed.

Lemma rbind_Raise {A B} (e : exn) (f : A -> result B) : rbind (Raise e) f = Raise e.
Proof. reflexivity. Qed.

Lemma rbind_Ok_inv {A B} (m : result A) (f : A -> result B) (b : B) :
  rbind m f = Ok b -> exists a, m = Ok a /\ f a = Ok b.
Proof. destruct m; simpl; [eauto | discriminate]. Qed.

Lemma rmap_cons_Ok_inv {A} (x : A) (m : result (list A)) (s : list A) :
  rmap (cons x) m = Ok s -> exists s', m = Ok s' /\ s = x :: s'.
Proof. destruct m; simpl; intros E; inversion E; eauto. Qed.

#[export] Hint Rewrite @rbind_Ok @rbind_Raise : mixer_rw.

Lemma mjoin_cons {A} (x : list A) (l : list (list A)) : mjoin (x :: l) = x ++ mjoin l.
Proof. reflexivity. Qed.

(** ** Slices *)

Lemma py_slice_app (l1 l2 : list byte) (n : nat) :
  py_slice (l1 ++ l2) (length l1) (length l1 + n) = take n l2.
Proof.
  unfold py_slice. rewrite drop_app_length. f_equal. lia.
Qed.

(** The slice of a buffer at the position and length of a piece of it is
    that piece. *)
Lemma py_slice_mid (pre bs post : list byte) :
  py_slice (pre ++ bs ++ post) (length pre) (length pre + length bs) = bs.
Proof. rewrite py_slice_app. apply take_app_length. Qed.

Lemma py_slice_mid_len (pre bs post : list byte) (n : nat) :
  length bs = n -> py_slice (pre ++ bs ++ post) (length pre) (length pre + n) = bs.
Proof. intros <-. apply py_slice_mid. Qed.

Lemma py_slice_at (pre bs post : list byte) (i n : nat) :
  i = length pre -> length bs = n -> py_slice (pre ++ bs ++ post) i (i + n) = bs.
Proof. intros -> <-. apply py_slice_mid. Qed.

Lemma length_py_slice (data : list byte) (a b : nat) :
  length (py_slice data a b) = Nat.min (b - a) (length data - a).
Proof. unfold py_slice. rewrite length_take, length_drop. reflexivity. Qed.

(** ** Little-endian integers *)

Lemma length_le_split (n : nat) (z : Z) : length (le_split n z) = n.
Proof. revert z; induction n; intros; simpl; auto. Qed.

Lemma le_combine_bound (bs : list byte) :
  0 <= le_combine bs < 2 ^ (8 * Z.of_nat (length bs)).
Proof.
  induction bs as [|b t IH]; simpl; [lia|].
  pose proof (byte_val_range b).
  rewrite Nat2Z.inj_succ, Z.mul_succ_r, Z.pow_add_r by lia.
  change (2 ^ 8) with 256. nia.
Qed.

Lemma le_combine_split (n : nat) (z : Z) :
  0 <= z < 2 ^ (8 * Z.of_nat n) -> le_combine (le_split n z) = z.
Proof.
  revert z; induction n as [|n IH]; intros z Hz; simpl.
  - simpl in Hz. lia.
  - rewrite Nat2Z.inj_succ, Z.mul_succ_r, Z.pow_add_r in Hz by lia.
    change (2 ^ 8) with 256 in Hz.
    rewrite byte_val_of_Z, IH.
    + pose proof (Z.div_mod z 256). lia.
    + split; [apply Z.div_pos; lia|].
      apply Z.div_lt_upper_bound; lia.
Qed.

Lemma le_split_combine (bs : list byte) :
  le_split (length bs) (le_combine bs) = bs.
Proof.
  induction bs as [|b t IH]; simpl; [reflexivity|].
  pose proof (byte_val_range b).
  assert (Hd : (byte_val b + 256 * le_combine t) / 256 = le_combine t).
  { rewrite Z.add_comm, Z.mul_comm, Z.div_add_l by lia.
    rewrite Z.div_small by lia. lia. }
  assert (Hm : (byte_val b + 256 * le_combine t) mod 256 = byte_val b).
  { rewrite Z.mul_comm, Z.mod_add by lia. apply Z.mod_small; lia. }
  rewrite Hd. f_equal; [|exact IH].
  rewrite byte_of_Z_mod, Hm. apply byte_of_Z_val.
Qed.

Lemma le_combine_app (l1 l2 : list byte) :
  le_combine (l1 ++ l2) = le_combine l1 + 2 ^ (8 * Z.of_nat (length l1)) * le_combine l2.
Proof.
  induction l1 as [|b t IH]; simpl; [lia|].
  rewrite IH, Nat2Z.inj_succ, Z.mul_succ_r, Z.pow_add_r by lia.
  change (2 ^ 8) with 256. lia.
Qed.

#[export] Hint Rewrite length_le_split le_split_combine : mixer_rw.

Lemma le_split_S (n : nat) (z : Z) : le_split (S n) z = byte_of_Z z :: le_split n (z / 256).
Proof. reflexivity. Qed.

Lemma le_combine_cons (b : byte) (t : list byte) :
  le_combine (b :: t) = byte_val b + 256 * le_combine t.
Proof. reflexivity. Qed.

Arguments le_combine : simpl never.
Arguments le_split : simpl never.
#[export] Hint Resolve le_combine_bound : mixer.

(** A value that fits in [n] bytes has an [n]-byte representation whose
    [le_combine] is the value and whose bytes are determined by it. *)
Lemma le_split_inj (n : nat) (z1 z2 : Z) :
  0 <= z1 < 2 ^ (8 * Z.of_nat n) -> 0 <= z2 < 2 ^ (8 * Z.of_nat n) ->
  le_split n z1 = le_split n z2 -> z1 = z2.
Proof.
  intros H1 H2 E. rewrite <- (le_combine_split n z1), <- (le_combine_split n z2) by assumption.
  congruence.
Qed.

(** ** Invariants of transition systems *)

(** A property that holds initially and that every step preserves holds
    in every reachable state. *)
Lemma rtc_invariant {A} (R : A -> A -> Prop) (P : A -> Prop) (x y : A) :
  P x -> (forall a b, P a -> R a b -> P b) -> rtc R x y -> P y.
Proof. intros Hx Hstep Hr. induction Hr; eauto. Qed.
