(* ===== verification/Numeric.v ===== *)
(** * Numeric: the integer conversions of common.py and the [struct]
    primitives it calls.

    - [intToBytes] / [bytesToInt] (common.py lines 49-53) are
      [int.to_bytes(size, byteorder='little')] and
      [int.from_bytes(value, 'little')]: exact little-endian, with
      [OverflowError] for a value outside [0, 256^size).
    - [struct.pack] / [struct.unpack] with the formats ['I'], ['f'],
      ['2f'], ['3I'], ... use the NATIVE byte order of the platform and the
      native sizes (4 bytes for C [unsigned int] and [float] on every
      platform CPython supports).  The byte order is the class [Platform];
      every theorem is stated for any platform unless it says otherwise.
    - A 32-bit float is represented by its IEEE-754 binary32 bit pattern
      [f32]: [struct] moves those 32 bits unchanged.  The conversion of a
      Python float (a double) to binary32 by [struct.pack('f', _)]
      (rounding, [OverflowError] beyond the binary32 range) is not
      modelled: the value passed is a binary32 value already. *)

From Stdlib Require Import ZArith Lia.
From stdpp Require Import base list.
From S2P Require Import Prelude.

Open Scope Z_scope.

(** ** [int.to_bytes] / [int.from_bytes] *)

Definition intToBytes (value : Z) (size : nat) : result (list byte) :=
  if (0 <=? value) && (value <? 2 ^ (8 * Z.of_nat size))
  then Ok (le_split size value)
  else Raise OverflowError.

Definition bytesToInt (value : list byte) : Z := le_combine value.

(** ** Native byte order *)

Inductive endian := Little | Big.

#[export] Instance endian_eq_dec : EqDecision endian.
Proof. solve_decision. Defined.

(** The platform the interpreter runs on: [sys.byteorder]. *)
Class Platform := native_order : endian.

(** The two platforms: x86 and ARM are little-endian, s390x and some
    PowerPC and MIPS configurations are big-endian. *)
Definition little_endian : Platform := Little.
Definition big_endian : Platform := Big.

(** The bytes of a little-endian image in the given order. *)
Definition order_bytes (e : endian) (bs : list byte) : list byte :=
  match e with
  | Little => bs
  | Big => rev bs
  end.

(** ** binary32 values *)

Record f32 := F32 { f32_bits : Z }.

#[export] Instance f32_eq_dec : EqDecision f32.
Proof. solve_decision. Defined.

(** A bit pattern of 32 bits. *)
Definition f32_wf (f : f32) : Prop := 0 <= f32_bits f < 2 ^ 32.

(** [1.0] as binary32: sign 0, biased exponent 127, mantissa 0. *)
Definition f32_one : f32 := F32 (127 * 2 ^ 23).

(** ** [struct] formats and values *)

(** The format characters the module uses: ['I'] (C unsigned int) and
    ['f'] (C float), both 4 bytes wide. *)
Inductive fmt_kind := FmtI | FmtF.

(** A value [struct.unpack] returns: a Python int or a Python float. *)
Inductive pyscalar := PyInt (z : Z) | PyFloat (f : f32).

#[export] Instance pyscalar_eq_dec : EqDecision pyscalar.
Proof. solve_decision. Defined.

Section Struct.
Context `{Platform}.

(** [struct.pack('I', v)]: [struct.error] outside [0, 2^32). *)
Definition pack_u32 (v : Z) : result (list byte) :=
  if (0 <=? v) && (v <? 2 ^ 32)
  then Ok (order_bytes native_order (le_split 4 v))
  else Raise StructError.

(** [struct.pack('f', v)] of a binary32 value. *)
Definition pack_f32 (f : f32) : list byte :=
  order_bytes native_order (le_split 4 (f32_bits f)).

Definition unpack_item (k : fmt_kind) (bs : list byte) : pyscalar :=
  let z := le_combine (order_bytes native_order bs) in
  match k with
  | FmtI => PyInt z
  | FmtF => PyFloat (F32 z)
  end.

(** The items of [n] consecutive 4-byte fields. *)
Fixpoint unpack_items (k : fmt_kind) (n : nat) (bs : list byte) : list pyscalar :=
  match n with
  | O => []
  | S n' => unpack_item k (take 4 bs) :: unpack_items k n' (drop 4 bs)
  end.

(** [struct.unpack('<n><k>', buf)]: the buffer must have exactly
    [calcsize] = [4 * n] bytes, else [struct.error]; the result is the
    tuple of the [n] items. *)
Definition struct_unpack (n : nat) (k : fmt_kind) (buf : list byte)
  : result (list pyscalar) :=
  if Nat.eqb (length buf) (4 * n) then Ok (unpack_items k n buf)
  else Raise StructError.

(** [struct.pack('<n>f', *fs)] with [n = len(fs)]. *)
Definition pack_f32s (fs : list f32) : list byte := mjoin (map pack_f32 fs).

(** The four bytes [struct.pack] writes for a value of either kind, as
    a peer that follows the spec writes array elements. *)
Definition pack_scalar (x : pyscalar) : list byte :=
  match x with
  | PyInt z => order_bytes native_order (le_split 4 z)
  | PyFloat f => pack_f32 f
  end.
End Struct.

(** A value of the kind of a format character, in its range. *)
Definition scalar_wf (k : fmt_kind) (x : pyscalar) : Prop :=
  match k, x with
  | FmtI, PyInt z => 0 <= z < 2 ^ 32
  | FmtF, PyFloat f => f32_wf f
  | _, _ => False
  end.

(** ** Byte order and binary32 values *)

Lemma order_bytes_involutive (e : endian) (bs : list byte) :
  order_bytes e (order_bytes e bs) = bs.
Proof. destruct e; simpl; [reflexivity | apply rev_involutive]. Qed.

Lemma length_order_bytes (e : endian) (bs : list byte) :
  length (order_bytes e bs) = length bs.
Proof. destruct e; simpl; [reflexivity | apply length_rev]. Qed.

#[export] Hint Rewrite order_bytes_involutive length_order_bytes : mixer_rw.

Lemma f32_one_wf : f32_wf f32_one.
Proof. unfold f32_wf, f32_one. simpl. lia. Qed.

(** ** Conversions: behaviour on every branch *)

Lemma intToBytes_ok (v : Z) (n : nat) :
  0 <= v < 2 ^ (8 * Z.of_nat n) -> intToBytes v n = Ok (le_split n v).
Proof.
  intros Hv. unfold intToBytes.
  destruct (Z.leb_spec 0 v), (Z.ltb_spec v (2 ^ (8 * Z.of_nat n))); simpl; auto; lia.
Qed.

Lemma intToBytes_overflow (v : Z) (n : nat) :
  ~ (0 <= v < 2 ^ (8 * Z.of_nat n)) -> intToBytes v n = Raise OverflowError.
Proof.
  intros Hv. unfold intToBytes.
  destruct (Z.leb_spec 0 v), (Z.ltb_spec v (2 ^ (8 * Z.of_nat n))); simpl; auto; lia.
Qed.

(** Every successful [intToBytes] is the [n]-byte little-endian image of
    a value in range. *)
Lemma intToBytes_Ok_inv (v : Z) (n : nat) (bs : list byte) :
  intToBytes v n = Ok bs -> 0 <= v < 2 ^ (8 * Z.of_nat n) /\ bs = le_split n v.
Proof.
  unfold intToBytes.
  destruct (Z.leb_spec 0 v), (Z.ltb_spec v (2 ^ (8 * Z.of_nat n))); simpl;
    intros E; inversion E; subst; auto; lia.
Qed.

Lemma bytesToInt_intToBytes (v : Z) (n : nat) (bs : list byte) :
  intToBytes v n = Ok bs -> bytesToInt bs = v /\ length bs = n.
Proof.
  intros [Hv ->]%intToBytes_Ok_inv. unfold bytesToInt.
  rewrite le_combine_split, length_le_split by exact Hv. auto.
Qed.

Lemma intToBytes_bytesToInt (bs : list byte) :
  intToBytes (bytesToInt bs) (length bs) = Ok bs.
Proof.
  unfold bytesToInt. rewrite intToBytes_ok by apply le_combine_bound.
  rewrite le_split_combine. reflexivity.
Qed.

(** C35: [intToBytes(v, n, 'little')] and [int.from_bytes(bs, 'little')] are
    inverse: [intToBytes] produces [bs] exactly when [bs] has [n] bytes
    and reads back as [v]. *)
Theorem intToBytes_bytesToInt_iff (v : Z) (n : nat) (bs : list byte) :
  intToBytes v n = Ok bs <-> bytesToInt bs = v /\ length bs = n.
Proof.
  split; [apply bytesToInt_intToBytes|].
  intros [<- <-]. apply intToBytes_bytesToInt.
Qed.

Section StructLemmas.
Context `{Platform}.

Lemma length_pack_f32 (f : f32) : length (pack_f32 f) = 4%nat.
Proof. unfold pack_f32. py_simp. reflexivity. Qed.

Lemma pack_u32_ok (v : Z) :
  0 <= v < 2 ^ 32 -> pack_u32 v = Ok (order_bytes native_order (le_split 4 v)).
Proof.
  intros Hv. unfold pack_u32.
  destruct (Z.leb_spec 0 v), (Z.ltb_spec v (2 ^ 32)); simpl; auto; lia.
Qed.

Lemma pack_u32_error (v : Z) :
  ~ (0 <= v < 2 ^ 32) -> pack_u32 v = Raise StructError.
Proof.
  intros Hv. unfold pack_u32.
  destruct (Z.leb_spec 0 v), (Z.ltb_spec v (2 ^ 32)); simpl; auto; lia.
Qed.

Lemma pack_u32_Ok_inv (v : Z) (bs : list byte) :
  pack_u32 v = Ok bs -> 0 <= v < 2 ^ 32 /\ bs = order_bytes native_order (le_split 4 v).
Proof.
  unfold pack_u32.
  destruct (Z.leb_spec 0 v), (Z.ltb_spec v (2 ^ 32)); simpl;
    intros E; inversion E; subst; auto; lia.
Qed.

Lemma unpack_item_u32 (v : Z) :
  0 <= v < 2 ^ 32 ->
  unpack_item FmtI (order_bytes native_order (le_split 4 v)) = PyInt v.
Proof. intros Hv. unfold unpack_item. py_simp. rewrite le_combine_split; auto. Qed.

Lemma unpack_item_f32 (f : f32) :
  f32_wf f -> unpack_item FmtF (pack_f32 f) = PyFloat f.
Proof.
  destruct f as [z]. unfold f32_wf, pack_f32, unpack_item. simpl. intros Hz.
  py_simp. rewrite le_combine_split; auto.
Qed.

(** Unpacking reads the fields of a concatenation one after the other. *)
Lemma unpack_items_app (k : fmt_kind) (n : nat) (b : list byte) (rest : list byte) :
  length b = 4%nat ->
  unpack_items k (S n) (b ++ rest) = unpack_item k b :: unpack_items k n rest.
Proof.
  intros Hb. simpl. rewrite <- Hb, take_app_length, drop_app_length. reflexivity.
Qed.

Lemma length_pack_f32s (fs : list f32) : length (pack_f32s fs) = (4 * length fs)%nat.
Proof.
  induction fs as [|f fs IH]; [reflexivity|].
  unfold pack_f32s in *. simpl. rewrite length_app, length_pack_f32, IH. lia.
Qed.

Lemma unpack_items_pack_f32s (fs : list f32) :
  Forall f32_wf fs -> unpack_items FmtF (length fs) (pack_f32s fs) = map PyFloat fs.
Proof.
  induction 1 as [|f fs Hf Hfs IH]; [reflexivity|].
  unfold pack_f32s in *. simpl length. simpl mjoin.
  rewrite unpack_items_app by apply length_pack_f32.
  rewrite unpack_item_f32, IH by assumption. reflexivity.
Qed.

(** [struct.unpack('<n>f', struct.pack('<n>f', *fs)) == tuple(fs)]. *)
Lemma struct_unpack_pack_f32s (fs : list f32) :
  Forall f32_wf fs -> struct_unpack (length fs) FmtF (pack_f32s fs) = Ok (map PyFloat fs).
Proof.
  intros Hwf. unfold struct_unpack. rewrite length_pack_f32s, Nat.eqb_refl.
  rewrite unpack_items_pack_f32s by exact Hwf. reflexivity.
Qed.

(** A buffer of the wrong size is a [struct.error]. *)
Lemma struct_unpack_size_error (n : nat) (k : fmt_kind) (buf : list byte) :
  length buf <> (4 * n)%nat -> struct_unpack n k buf = Raise StructError.
Proof.
  intros Hl. unfold struct_unpack. destruct (Nat.eqb_spec (length buf) (4 * n)); congruence.
Qed.

Lemma struct_unpack_1 (k : fmt_kind) (b : list byte) :
  length b = 4%nat -> struct_unpack 1 k b = Ok [unpack_item k b].
Proof.
  intros Hb. unfold struct_unpack. rewrite Hb. simpl.
  rewrite take_ge by lia. reflexivity.
Qed.

Lemma length_unpack_items (k : fmt_kind) (n : nat) (bs : list byte) :
  length (unpack_items k n bs) = n.
Proof. revert bs; induction n; intros; simpl; auto. Qed.

Lemma length_pack_scalar (x : pyscalar) : length (pack_scalar x) = 4%nat.
Proof. destruct x; simpl; [rewrite length_order_bytes, length_le_split|apply length_pack_f32]; reflexivity. Qed.

Lemma unpack_item_pack_scalar (k : fmt_kind) (x : pyscalar) :
  scalar_wf k x -> unpack_item k (pack_scalar x) = x.
Proof.
  destruct k, x as [z|f]; simpl; try contradiction; intros Hx.
  - apply unpack_item_u32, Hx.
  - apply unpack_item_f32, Hx.
Qed.

Lemma unpack_items_pack_scalars (k : fmt_kind) (xs : list pyscalar) (rest : list byte) :
  Forall (scalar_wf k) xs ->
  unpack_items k (length xs) (mjoin (map pack_scalar xs) ++ rest) = xs.
Proof.
  induction 1 as [|x xs Hx Hxs IH]; [reflexivity|].
  simpl length. simpl map. rewrite mjoin_cons, <- app_assoc.
  rewrite unpack_items_app by apply length_pack_scalar.
  rewrite unpack_item_pack_scalar, IH by assumption. reflexivity.
Qed.

Lemma length_pack_scalars (xs : list pyscalar) :
  length (mjoin (map pack_scalar xs)) = (4 * length xs)%nat.
Proof.
  induction xs as [|x xs IH]; [reflexivity|].
  simpl map. rewrite mjoin_cons, length_app, length_pack_scalar, IH. simpl. lia.
Qed.

Lemma struct_unpack_pack_scalars (k : fmt_kind) (r : list pyscalar) :
  Forall (scalar_wf k) r -> struct_unpack (length r) k (mjoin (map pack_scalar r)) = Ok r.
Proof.
  intros Hr. unfold struct_unpack. rewrite length_pack_scalars, Nat.eqb_refl.
  rewrite <- (app_nil_r (mjoin _)), unpack_items_pack_scalars by exact Hr. reflexivity.
Qed.
End StructLemmas.

#[export] Hint Rewrite @length_pack_f32 @length_pack_f32s @length_unpack_items : mixer_rw.
