(* ===== verification/Utf8.v ===== *)
(** * Utf8: [str.encode()] and [bytes.decode()] with the default codec.

    [encodeString] (common.py line 72) calls [value.encode()] and
    [decodeString] (line 79) calls [data[start:end].decode()]: both are
    UTF-8 with the ['strict'] error handler.  A Python [str] is its
    sequence of code points ([pystr], each in [0, 0x110000)); a lone
    surrogate (0xD800-0xDFFF) cannot be encoded ([UnicodeEncodeError]) and
    a byte string that is not well-formed UTF-8 in the sense of Unicode
    Table 3-7 (no overlong form, no surrogate, nothing above 0x10FFFF, no
    truncated sequence) cannot be decoded ([UnicodeDecodeError]).

    The decoder reads the leading byte to fix the sequence length, checks
    the continuation bytes (0x80-0xBF) and rejects a code point outside
    the range of that length: this accepts exactly Table 3-7's sequences.
    The lemmas show that the encoder and decoder are inverse
    ([utf8_decode_encode], [utf8_encode_decode]) and that a lone
    surrogate cannot be encoded; ScalarCodec.v uses them for the string
    codec of the module. *)

From Stdlib Require Import ZArith Lia.
From stdpp Require Import base list.
From S2P Require Import Prelude.

Open Scope Z_scope.

Abbreviation pystr := (list Z).

(** ** Encoding: [str.encode('utf-8', 'strict')] *)

Definition is_surrogate (c : Z) : bool := (55296 <=? c) && (c <? 57344).

Definition utf8_encode_char (c : Z) : result (list byte) :=
  if c <? 0 then Raise UnicodeEncodeError
  else if c <? 128 then Ok [byte_of_Z c]
  else if c <? 2048 then
    Ok [byte_of_Z (192 + c / 64); byte_of_Z (128 + c mod 64)]
  else if c <? 65536 then
    if is_surrogate c then Raise UnicodeEncodeError
    else Ok [byte_of_Z (224 + c / 4096); byte_of_Z (128 + (c / 64) mod 64);
             byte_of_Z (128 + c mod 64)]
  else if c <? 1114112 then
    Ok [byte_of_Z (240 + c / 262144); byte_of_Z (128 + (c / 4096) mod 64);
        byte_of_Z (128 + (c / 64) mod 64); byte_of_Z (128 + c mod 64)]
  else Raise UnicodeEncodeError.

Fixpoint utf8_encode (s : pystr) : result (list byte) :=
  match s with
  | [] => Ok []
  | c :: s' =>
      let! b := utf8_encode_char c in
      let! bs := utf8_encode s' in
      Ok (b ++ bs)
  end.

(** ** Decoding: [bytes.decode('utf-8', 'strict')] *)

Definition is_cont (v : Z) : bool := (128 <=? v) && (v <? 192).

Fixpoint utf8_decode (bs : list byte) : result pystr :=
  match bs with
  | [] => Ok []
  | b1 :: r1 =>
      let v1 := byte_val b1 in
      if v1 <? 128 then rmap (cons v1) (utf8_decode r1)
      else if v1 <? 192 then Raise UnicodeDecodeError
      else if v1 <? 224 then
        match r1 with
        | b2 :: r2 =>
            let cp := (v1 - 192) * 64 + (byte_val b2 - 128) in
            if is_cont (byte_val b2) && (128 <=? cp)
            then rmap (cons cp) (utf8_decode r2)
            else Raise UnicodeDecodeError
        | [] => Raise UnicodeDecodeError
        end
      else if v1 <? 240 then
        match r1 with
        | b2 :: b3 :: r3 =>
            let cp := (v1 - 224) * 4096 + (byte_val b2 - 128) * 64
                      + (byte_val b3 - 128) in
            if is_cont (byte_val b2) && is_cont (byte_val b3)
               && (2048 <=? cp) && negb (is_surrogate cp)
            then rmap (cons cp) (utf8_decode r3)
            else Raise UnicodeDecodeError
        | _ => Raise UnicodeDecodeError
        end
      else if v1 <? 248 then
        match r1 with
        | b2 :: b3 :: b4 :: r4 =>
            let cp := (v1 - 240) * 262144 + (byte_val b2 - 128) * 4096
                      + (byte_val b3 - 128) * 64 + (byte_val b4 - 128) in
            if is_cont (byte_val b2) && is_cont (byte_val b3) && is_cont (byte_val b4)
               && (65536 <=? cp) && (cp <? 1114112)
            then rmap (cons cp) (utf8_decode r4)
            else Raise UnicodeDecodeError
        | _ => Raise UnicodeDecodeError
        end
      else Raise UnicodeDecodeError
  end.

(** A Python [str] value: code points in range. *)
Definition pystr_wf (s : pystr) : Prop := Forall (fun c => 0 <= c < 1114112) s.

(** A Python [str] that [encode()] accepts: no lone surrogate. *)
Definition pystr_encodable (s : pystr) : Prop :=
  Forall (fun c => 0 <= c < 1114112 /\ is_surrogate c = false) s.

(** ** Tactics of the proofs *)

(** Equality of two lists of bytes given as images of expressions. *)
Ltac bytes_eq :=
  repeat f_equal;
  match goal with
  | |- byte_of_Z ?z = ?b =>
      transitivity (byte_of_Z (byte_val b));
      [f_equal; zlia | autorewrite with mixer_rw; reflexivity]
  end.

(** Peel the next byte off a list the decoder matches on. *)
Ltac next_byte Hd :=
  match type of Hd with
  | context [match ?r with [] => _ | _ :: _ => _ end] =>
      let b := fresh "b" in let r' := fresh "r" in
      destruct r as [|b r']; [simpl in Hd; discriminate Hd | simpl in Hd]
  end.

(** ** Round trips *)

(** The base-64 digits of a code point, as the encoder extracts them. *)
Lemma digits64 (c : Z) :
  0 <= c ->
  c = 64 * (c / 64) + c mod 64 /\ 0 <= c mod 64 < 64 /\
  c / 64 = 64 * (c / 4096) + (c / 64) mod 64 /\ 0 <= (c / 64) mod 64 < 64 /\
  c / 4096 = 64 * (c / 262144) + (c / 4096) mod 64 /\ 0 <= (c / 4096) mod 64 < 64.
Proof.
  intros Hc.
  assert (E1 : c / 4096 = c / 64 / 64) by (rewrite Z.div_div by lia; reflexivity).
  assert (E2 : c / 262144 = c / 4096 / 64) by (rewrite Z.div_div by lia; reflexivity).
  rewrite E2, E1.
  pose proof (Z.div_mod c 64); pose proof (Z.div_mod (c / 64) 64);
    pose proof (Z.div_mod (c / 64 / 64) 64);
    pose proof (Z.mod_pos_bound c 64); pose proof (Z.mod_pos_bound (c / 64) 64);
    pose proof (Z.mod_pos_bound (c / 64 / 64) 64).
  repeat split; lia.
Qed.

(** Decoding the encoding of one code point reads exactly that code point. *)
Lemma utf8_decode_encode_char (c : Z) (b rest : list byte) :
  utf8_encode_char c = Ok b -> utf8_decode (b ++ rest) = rmap (cons c) (utf8_decode rest).
Proof.
  unfold utf8_encode_char, is_surrogate.
  destruct (Z.ltb_spec c 0); [discriminate|].
  destruct (digits64 c) as (?&?&?&?&?&?); [lia|].
  set (d3 := (c / 4096) mod 64) in *; set (d2 := (c / 64) mod 64) in *;
  set (d1 := c mod 64) in *; set (q3 := c / 262144) in *;
  set (q2 := c / 4096) in *; set (q1 := c / 64) in *.
  zbool_cases; intros E; try discriminate; injection E as <-; simpl;
    rewrite ?byte_val_of_Z_small by lia; unfold is_cont, is_surrogate;
    zbool_cases; try lia; f_equal; f_equal; lia.
Qed.

Lemma utf8_decode_encode (s : pystr) (bs : list byte) :
  utf8_encode s = Ok bs -> utf8_decode bs = Ok s.
Proof.
  revert bs; induction s as [|c s IH]; simpl; intros bs E.
  - injection E as <-. reflexivity.
  - rbind_inv E. rbind_inv E. injection E as <-.
    rewrite (utf8_decode_encode_char c) by assumption.
    rewrite (IH _ Hm0). reflexivity.
Qed.

(** The encodings of the code points of each length. *)
Lemma utf8_encode_char_1 (b1 : byte) :
  byte_val b1 < 128 -> utf8_encode_char (byte_val b1) = Ok [b1].
Proof.
  intros H1. byte_ranges. unfold utf8_encode_char. zbool_cases; try lia.
  rewrite byte_of_Z_val. reflexivity.
Qed.

Lemma utf8_encode_char_2 (b1 b2 : byte) (cp : Z) :
  192 <= byte_val b1 < 224 -> 128 <= byte_val b2 < 192 ->
  cp = (byte_val b1 - 192) * 64 + (byte_val b2 - 128) -> 128 <= cp ->
  utf8_encode_char cp = Ok [b1; b2].
Proof.
  intros H1 H2 -> H3. byte_ranges.
  unfold utf8_encode_char. zbool_cases; try lia; try discriminate. bytes_eq.
Qed.

Lemma utf8_encode_char_3 (b1 b2 b3 : byte) (cp : Z) :
  224 <= byte_val b1 < 240 -> 128 <= byte_val b2 < 192 -> 128 <= byte_val b3 < 192 ->
  cp = (byte_val b1 - 224) * 4096 + (byte_val b2 - 128) * 64 + (byte_val b3 - 128) ->
  2048 <= cp -> ~ (55296 <= cp < 57344) ->
  utf8_encode_char cp = Ok [b1; b2; b3].
Proof.
  intros H1 H2 H3 -> H4 H5. byte_ranges.
  unfold utf8_encode_char, is_surrogate. zbool_cases; try lia; bytes_eq.
Qed.

Lemma utf8_encode_char_4 (b1 b2 b3 b4 : byte) (cp : Z) :
  240 <= byte_val b1 < 248 -> 128 <= byte_val b2 < 192 ->
  128 <= byte_val b3 < 192 -> 128 <= byte_val b4 < 192 ->
  cp = (byte_val b1 - 240) * 262144 + (byte_val b2 - 128) * 4096
       + (byte_val b3 - 128) * 64 + (byte_val b4 - 128) ->
  65536 <= cp < 1114112 ->
  utf8_encode_char cp = Ok [b1; b2; b3; b4].
Proof.
  intros H1 H2 H3 H4 -> H5. byte_ranges.
  unfold utf8_encode_char. zbool_cases; try lia; try discriminate. bytes_eq.
Qed.

Lemma utf8_encode_decode_bounded (n : nat) :
  forall bs s, (length bs <= n)%nat -> utf8_decode bs = Ok s -> utf8_encode s = Ok bs.
Proof.
  induction n as [|n IH]; intros [|b1 r1] s Hl Hd; simpl in Hl; try lia;
    [injection Hd as <-; reflexivity | injection Hd as <-; reflexivity |].
  simpl in Hd. unfold is_cont, is_surrogate in Hd.
  if_cases Hd; repeat next_byte Hd; if_cases Hd;
    apply rmap_cons_Ok_inv in Hd as [s' [Hd ->]]; simpl in Hl |- *;
    (apply IH in Hd; [|lia]).
  - rewrite utf8_encode_char_1 by lia. simpl. rewrite Hd. reflexivity.
  - rewrite (utf8_encode_char_2 b1 b) by (reflexivity || lia). simpl. rewrite Hd. reflexivity.
  - rewrite (utf8_encode_char_3 b1 b b0) by (reflexivity || lia). simpl. rewrite Hd. reflexivity.
  - rewrite (utf8_encode_char_4 b1 b b0 b2) by (reflexivity || lia). simpl. rewrite Hd. reflexivity.
Qed.

(** What [bytes.decode()] accepts, [str.encode()] gives back unchanged. *)
Lemma utf8_encode_decode (bs : list byte) (s : pystr) :
  utf8_decode bs = Ok s -> utf8_encode s = Ok bs.
Proof. apply (utf8_encode_decode_bounded (length bs)). lia. Qed.

(** [str.encode()] succeeds exactly on the strings without lone
    surrogates. *)
Lemma utf8_encode_char_ok (c : Z) :
  0 <= c < 1114112 -> is_surrogate c = false -> exists b, utf8_encode_char c = Ok b.
Proof.
  intros Hc Hs. unfold utf8_encode_char. rewrite Hs. zbool_cases; eauto; lia.
Qed.

Lemma utf8_encode_ok (s : pystr) :
  pystr_encodable s -> exists bs, utf8_encode s = Ok bs.
Proof.
  induction 1 as [|c s [Hc Hs] _ [bs IH]]; simpl; [eauto|].
  destruct (utf8_encode_char_ok c Hc Hs) as [b ->]. rewrite IH. simpl. eauto.
Qed.

Lemma utf8_encode_char_error (c : Z) (e : exn) :
  utf8_encode_char c = Raise e -> e = UnicodeEncodeError.
Proof.
  unfold utf8_encode_char. zbool_cases; try destruct (is_surrogate c); congruence.
Qed.

(** [str.encode()] raises [UnicodeEncodeError] on a string that contains
    a lone surrogate code point. *)
Lemma utf8_encode_surrogate (s : pystr) (c : Z) :
  c ∈ s -> is_surrogate c = true -> utf8_encode s = Raise UnicodeEncodeError.
Proof.
  intros Hin Hs. induction s as [|c' s IH]; [inversion Hin|].
  simpl. apply elem_of_cons in Hin as [<-|Hin].
  - unfold utf8_encode_char. rewrite Hs. unfold is_surrogate in Hs. bool_to_Prop Hs.
    zbool_cases; try lia. reflexivity.
  - destruct (utf8_encode_char c') eqn:E; simpl.
    + rewrite IH by assumption. reflexivity.
    + apply utf8_encode_char_error in E. congruence.
Qed.
