(* ===== verification/Message.v ===== *)
(** * Message: the enumerations and the [Command] class of common.py.

    - [MessageType] (lines 11-34), [LightType] (36-39) and
      [SensorFitMode] (41-44) are inductive types with their [.value]
      codes; [intToMessageType] (line 55-56) is the enum lookup
      [MessageType(value)], raising [ValueError] for an unknown code.
    - [Command] (lines 218-226) is a record; its class attribute
      [Command._id] is threaded explicitly as the counter [next_id], which
      [Command_init] reads and advances when the id passed is 0.
    The theorems show the type-code round trip, the 16-bit bound of the
    codes, and that in any sequential run of constructions the counter
    never decreases and the automatically assigned ids are distinct. *)

From Stdlib Require Import ZArith Lia.
From stdpp Require Import base list.
From S2P Require Import Prelude.

Open Scope Z_scope.

(** ** Enumerations *)

Inductive MessageType :=
  | JOIN_ROOM | CREATE_ROOM | LEAVE_ROOM | LIST_ROOMS | CONTENT
  | CLEAR_CONTENT | DELETE_ROOM | CLEAR_ROOM | LIST_ROOM_CLIENTS | LIST_CLIENTS
  | COMMAND | TRANSFORM | DELETE | MESH | MATERIAL | CAMERA | LIGHT
  | MESHCONNECTION | RENAME | DUPLICATE | SEND_TO_TRASH | RESTORE_FROM_TRASH
  | TEXTURE.

#[export] Instance MessageType_eq_dec : EqDecision MessageType.
Proof. solve_decision. Defined.

(** [MessageType.X.value] *)
Definition MessageType_value (t : MessageType) : Z :=
  match t with
  | JOIN_ROOM => 1 | CREATE_ROOM => 2 | LEAVE_ROOM => 3 | LIST_ROOMS => 4
  | CONTENT => 5 | CLEAR_CONTENT => 6 | DELETE_ROOM => 7 | CLEAR_ROOM => 8
  | LIST_ROOM_CLIENTS => 9 | LIST_CLIENTS => 10
  | COMMAND => 100 | TRANSFORM => 101 | DELETE => 102 | MESH => 103
  | MATERIAL => 104 | CAMERA => 105 | LIGHT => 106 | MESHCONNECTION => 107
  | RENAME => 108 | DUPLICATE => 109 | SEND_TO_TRASH => 110
  | RESTORE_FROM_TRASH => 111 | TEXTURE => 112
  end.

(** The members in definition order, as [list(MessageType)]. *)
Definition MessageType_members : list MessageType :=
  [JOIN_ROOM; CREATE_ROOM; LEAVE_ROOM; LIST_ROOMS; CONTENT; CLEAR_CONTENT;
   DELETE_ROOM; CLEAR_ROOM; LIST_ROOM_CLIENTS; LIST_CLIENTS; COMMAND; TRANSFORM;
   DELETE; MESH; MATERIAL; CAMERA; LIGHT; MESHCONNECTION; RENAME; DUPLICATE;
   SEND_TO_TRASH; RESTORE_FROM_TRASH; TEXTURE].

(** [intToMessageType(value)] = [MessageType(value)]: the member whose
    value is [value], or [ValueError]. *)
Definition intToMessageType (value : Z) : result MessageType :=
  match list_find (fun t => MessageType_value t = value) MessageType_members with
  | Some (_, t) => Ok t
  | None => Raise ValueError
  end.

Inductive LightType := SPOT | SUN | POINT.

Definition LightType_value (t : LightType) : Z :=
  match t with SPOT => 0 | SUN => 1 | POINT => 2 end.

Inductive SensorFitMode := AUTO | VERTICAL | HORIZONTAL.

Definition SensorFitMode_value (m : SensorFitMode) : Z :=
  match m with AUTO => 0 | VERTICAL => 1 | HORIZONTAL => 2 end.

(** ** Commands *)

Record Command := mkCommand {
  cmd_type : MessageType;
  cmd_data : list byte;
  cmd_id : Z
}.

#[export] Instance Command_eq_dec : EqDecision Command.
Proof. solve_decision. Defined.

(** The initial value of the class attribute [Command._id]. *)
Definition Command_id_start : Z := 100.

(** [Command(commandType, data, commandId)] with the class counter
    [next_id] before the call; returns the object and the counter after.
    [data] is [None] for a Python [None]; [data or b''] maps it, like any
    empty payload, to [b'']. *)
Definition Command_init (commandType : MessageType) (data : option (list byte))
    (commandId : Z) (next_id : Z) : Command * Z :=
  let data' := match data with Some d => d | None => [] end in
  if commandId =? 0
  then (mkCommand commandType data' next_id, next_id + 1)
  else (mkCommand commandType data' commandId, next_id).

(** A sequential run of constructions from counter [next_id]: each
    request is [(commandType, data, commandId)]. *)
Fixpoint Command_run (reqs : list (MessageType * option (list byte) * Z)) (next_id : Z)
    : list Command * Z :=
  match reqs with
  | [] => ([], next_id)
  | (t, d, i) :: reqs' =>
      let '(c, n1) := Command_init t d i next_id in
      let '(cs, n2) := Command_run reqs' n1 in
      (c :: cs, n2)
  end.

(** The number of requests that ask for an automatic id. *)
Definition auto_count (reqs : list (MessageType * option (list byte) * Z)) : nat :=
  length (filter (fun r : MessageType * option (list byte) * Z => r.2 = 0) reqs).

(** The ids of the commands built for requests with id 0. *)
Fixpoint auto_ids (reqs : list (MessageType * option (list byte) * Z)) (cs : list Command)
    : list Z :=
  match reqs, cs with
  | (_, _, i) :: reqs', c :: cs' =>
      if i =? 0 then cmd_id c :: auto_ids reqs' cs' else auto_ids reqs' cs'
  | _, _ => []
  end.

(** ** The type codes *)

Lemma intToMessageType_value (t : MessageType) :
  intToMessageType (MessageType_value t) = Ok t.
Proof. destruct t; reflexivity. Qed.

Lemma intToMessageType_Ok_inv (v : Z) (t : MessageType) :
  intToMessageType v = Ok t -> MessageType_value t = v.
Proof.
  unfold intToMessageType. destruct (list_find _ _) as [[i t']|] eqn:E; [|discriminate].
  intros [= <-]. apply list_find_Some in E as (_ & Hv & _). exact Hv.
Qed.

(** An unknown code raises [ValueError]. *)
Lemma intToMessageType_unknown (v : Z) :
  (forall t, MessageType_value t <> v) -> intToMessageType v = Raise ValueError.
Proof.
  intros Hv. destruct (intToMessageType v) as [t|e] eqn:E.
  - apply intToMessageType_Ok_inv in E. exfalso. exact (Hv t E).
  - unfold intToMessageType in E. destruct (list_find _ _) as [[]|]; congruence.
Qed.

Lemma MessageType_value_inj (t1 t2 : MessageType) :
  MessageType_value t1 = MessageType_value t2 -> t1 = t2.
Proof.
  intros E. apply (f_equal intToMessageType) in E.
  rewrite !intToMessageType_value in E. congruence.
Qed.

(** Every code fits the unsigned 16-bit type field of the frame. *)
Lemma MessageType_value_range (t : MessageType) :
  0 < MessageType_value t < 2 ^ 16.
Proof. destruct t; simpl; lia. Qed.

(** C38: [MessageType(value)] is the member with that value, and raises
    [ValueError] when no member has it. *)
Theorem intToMessageType_spec (v : Z) :
  (forall t, intToMessageType v = Ok t <-> MessageType_value t = v) /\
  ((forall t, MessageType_value t <> v) -> intToMessageType v = Raise ValueError).
Proof.
  split; [|apply intToMessageType_unknown]. intros t.
  split; [apply intToMessageType_Ok_inv | intros <-; apply intToMessageType_value].
Qed.

#[export] Hint Rewrite intToMessageType_value : mixer_rw.
#[export] Hint Resolve MessageType_value_range : mixer.

(** ** The id counter *)

Lemma Command_init_auto (t : MessageType) (d : option (list byte)) (n : Z) :
  Command_init t d 0 n = (mkCommand t (default [] d) n, n + 1).
Proof. destruct d; reflexivity. Qed.

Lemma Command_init_given (t : MessageType) (d : option (list byte)) (i n : Z) :
  i <> 0 -> Command_init t d i n = (mkCommand t (default [] d) i, n).
Proof.
  intros Hi. unfold Command_init. destruct (Z.eqb_spec i 0); [lia|]. destruct d; reflexivity.
Qed.

Lemma Command_init_fields (t : MessageType) (d : option (list byte)) (i n : Z) :
  cmd_type (Command_init t d i n).1 = t /\ cmd_data (Command_init t d i n).1 = default [] d.
Proof. unfold Command_init. destruct (i =? 0), d; simpl; auto. Qed.

(** C24: The state of [Command._id] after a run, and the ids handed out: the
    counter advances by one per automatic id, and the automatic ids are
    the consecutive values from the counter's initial value. *)
Lemma Command_run_spec (reqs : list (MessageType * option (list byte) * Z)) (n : Z) :
  let '(cs, n') := Command_run reqs n in
  length cs = length reqs /\ n' = n + Z.of_nat (auto_count reqs) /\
  auto_ids reqs cs = map (fun k => n + Z.of_nat k) (seq 0 (auto_count reqs)).
Proof.
  revert n. induction reqs as [|[[t d] i] reqs IH]; intros n.
  { simpl. unfold auto_count. simpl. repeat split; lia. }
  unfold auto_count in *. simpl.
  destruct (Z.eqb_spec i 0) as [->|Hi].
  - rewrite Command_init_auto. specialize (IH (n + 1)).
    destruct (Command_run reqs (n + 1)) as [cs n'] eqn:E. simpl.
    destruct IH as (Hl & Hn & Hids). split; [lia|]. split; [lia|].
    rewrite Hids, <- seq_shift, map_map. f_equal; [lia|].
    apply map_ext. intros k. lia.
  - rewrite Command_init_given by exact Hi. specialize (IH n).
    destruct (Command_run reqs n) as [cs n'] eqn:E. simpl.
    destruct (Z.eqb_spec i 0); [lia|]. destruct IH as (Hl & Hn & Hids).
    rewrite filter_cons_False by (simpl; lia). auto.
Qed.
