(* ===== verification/Frame.v ===== *)
(** * Frame: the wire frame of a [Command].

    The frame is built inline in [writeMessage] (common.py lines 203-207)
    and taken apart inline in [readMessage] (lines 181-183 for the header,
    line 190 for the command):
      [len(data)] as 8 bytes LE | [id] as 4 bytes LE | [type.value] as
      2 bytes LE | [data].
    [frame_buffer] is lines 203-207 ([intToBytes] raises [OverflowError]
    when the length or the id does not fit); [parse_header] is lines
    181-183; [Command_of_frame] is line 190, which builds the command with
    [Command(intToMessageType(messageType), msg, commandId)] and therefore
    runs [Command.__init__] again: a frame whose id field is 0 receives a
    fresh id from the receiver's counter.

    The theorems: the header is 14 bytes and carries exactly the length,
    id and type; parsing a frame gives back the command when its id is
    not 0; serialisation fails exactly when the id leaves [0, 2^32) or the
    payload reaches 2^64 bytes; after 2^32 - 100 automatic ids the next
    command can no longer be sent. *)

From Stdlib Require Import ZArith Lia.
From stdpp Require Import base list.
From S2P Require Import Prelude Numeric Message.

Open Scope Z_scope.

(** The fixed header width. *)
Definition header_size : nat := 14.

(** [writeMessage] lines 203-207: the bytes to transmit. *)
Definition frame_buffer (command : Command) : result (list byte) :=
  let! size := intToBytes (Z.of_nat (length (cmd_data command))) 8 in
  let! commandId := intToBytes (cmd_id command) 4 in
  let! mtype := intToBytes (MessageType_value (cmd_type command)) 2 in
  Ok (size ++ commandId ++ mtype ++ cmd_data command).

(** [readMessage] lines 181-183: [(frameSize, commandId, messageType)]. *)
Definition parse_header (msg : list byte) : Z * Z * Z :=
  (bytesToInt (py_slice msg 0 8), bytesToInt (py_slice msg 8 12), bytesToInt (drop 12 msg)).

(** [readMessage] line 190, with the receiver's [Command._id] before and
    after. *)
Definition Command_of_frame (commandId messageType : Z) (msg : list byte) (next_id : Z)
    : result (Command * Z) :=
  let! t := intToMessageType messageType in
  Ok (Command_init t (Some msg) commandId next_id).

(** The header of a command, when it can be serialised. *)
Definition header_of (c : Command) : list byte :=
  le_split 8 (Z.of_nat (length (cmd_data c))) ++ le_split 4 (cmd_id c)
  ++ le_split 2 (MessageType_value (cmd_type c)).

(** The bytes of the frame of a command. *)
Definition frame_bytes (c : Command) : list byte := header_of c ++ cmd_data c.

(** The conditions under which [writeMessage] can serialise a command. *)
Definition frame_ok (c : Command) : Prop :=
  Z.of_nat (length (cmd_data c)) < 2 ^ 64 /\ 0 <= cmd_id c < 2 ^ 32.

#[export] Instance frame_ok_dec (c : Command) : Decision (frame_ok c).
Proof. unfold frame_ok. apply _. Defined.

(** ** Serialisation *)

Lemma length_header_of (c : Command) : length (header_of c) = header_size.
Proof. unfold header_of. rewrite !length_app, !length_le_split. reflexivity. Qed.

#[export] Hint Rewrite length_header_of : mixer_rw.

Lemma frame_buffer_ok (c : Command) :
  frame_ok c -> frame_buffer c = Ok (header_of c ++ cmd_data c).
Proof.
  intros [Hl Hi]. pose proof (MessageType_value_range (cmd_type c)).
  unfold frame_buffer, header_of.
  rewrite !intToBytes_ok by (simpl; lia). simpl. rewrite <- ?app_assoc. reflexivity.
Qed.

(** [writeMessage] raises [OverflowError] before sending anything when
    the id or the payload length does not fit its field. *)
Lemma frame_buffer_overflow (c : Command) :
  ~ frame_ok c -> frame_buffer c = Raise OverflowError.
Proof.
  unfold frame_ok, frame_buffer. intros Hc.
  destruct (decide (Z.of_nat (length (cmd_data c)) < 2 ^ 64)) as [Hl|Hl].
  - rewrite intToBytes_ok by (simpl; lia). simpl.
    rewrite intToBytes_overflow by (simpl; lia). reflexivity.
  - rewrite intToBytes_overflow by (simpl; lia). reflexivity.
Qed.

(** C11: [writeMessage]'s serialisation on every command: the header and the
    payload when the length fits 8 bytes and the id 4 unsigned bytes,
    [OverflowError] otherwise. *)
Theorem frame_buffer_spec (c : Command) :
  frame_buffer c = if decide (frame_ok c) then Ok (header_of c ++ cmd_data c)
                   else Raise OverflowError.
Proof.
  destruct (decide (frame_ok c)) as [Hc|Hc];
    [apply frame_buffer_ok | apply frame_buffer_overflow]; exact Hc.
Qed.

(** ** Parsing *)

Lemma parse_header_of (c : Command) :
  frame_ok c ->
  parse_header (header_of c) =
    (Z.of_nat (length (cmd_data c)), cmd_id c, MessageType_value (cmd_type c)).
Proof.
  intros [Hl Hi]. pose proof (MessageType_value_range (cmd_type c)).
  unfold parse_header, header_of, py_slice, bytesToInt.
  rewrite !drop_0, !Nat.sub_0_r.
  rewrite take_app_length' by (rewrite length_le_split; reflexivity).
  rewrite drop_app_length' by (rewrite length_le_split; reflexivity).
  rewrite take_app_length' by (rewrite length_le_split; reflexivity).
  rewrite app_assoc, drop_app_length' by (rewrite length_app, !length_le_split; reflexivity).
  rewrite !le_combine_split by lia. reflexivity.
Qed.

Lemma frame_buffer_Ok_inv (c : Command) (buf : list byte) :
  frame_buffer c = Ok buf -> frame_ok c /\ buf = header_of c ++ cmd_data c.
Proof.
  intros E. destruct (decide (frame_ok c)) as [Hc|Hc].
  - rewrite frame_buffer_ok in E by exact Hc. injection E as <-. auto.
  - rewrite frame_buffer_overflow in E by exact Hc. discriminate.
Qed.

(** The command rebuilt from its own fields is itself, when its id is
    not 0. *)
Lemma Command_of_frame_fields (c : Command) (n : Z) :
  cmd_id c <> 0 ->
  Command_of_frame (cmd_id c) (MessageType_value (cmd_type c)) (cmd_data c) n = Ok (c, n).
Proof.
  intros Hid. unfold Command_of_frame. rewrite intToMessageType_value. simpl.
  rewrite Command_init_given by exact Hid. destruct c; reflexivity.
Qed.

(** C1: Frame round trip: the header of a serialised command carries its
    payload length, and the command rebuilt from the header fields and
    that many payload bytes is the command itself, leaving the receiver's
    counter unchanged, whenever the id is not 0. *)
Theorem frame_roundtrip (c : Command) (buf : list byte) (n : Z) :
  frame_buffer c = Ok buf -> cmd_id c <> 0 ->
  let '(frameSize, commandId, messageType) := parse_header (take header_size buf) in
  frameSize = Z.of_nat (length (cmd_data c)) /\
  Command_of_frame commandId messageType
    (take (Z.to_nat frameSize) (drop header_size buf)) n = Ok (c, n).
Proof.
  intros [Hok ->]%frame_buffer_Ok_inv Hid.
  rewrite take_app_length', drop_app_length' by (rewrite length_header_of; reflexivity).
  rewrite parse_header_of by exact Hok. split; [reflexivity|].
  rewrite Nat2Z.id, take_ge by lia. apply Command_of_frame_fields, Hid.
Qed.

(** C22: A frame whose id field is 0 does not give back a command with id 0:
    [Command.__init__] replaces the id by the receiver's counter and
    advances it. *)
Lemma Command_of_frame_zero_id (t : MessageType) (msg : list byte) (n : Z) :
  Command_of_frame 0 (MessageType_value t) msg n = Ok (mkCommand t msg n, n + 1).
Proof. unfold Command_of_frame. rewrite intToMessageType_value. reflexivity. Qed.

(** C37: An unknown type code is a [ValueError], whatever the rest. *)
Lemma Command_of_frame_unknown (commandId messageType : Z) (msg : list byte) (n : Z) :
  (forall t, MessageType_value t <> messageType) ->
  Command_of_frame commandId messageType msg n = Raise ValueError.
Proof. intros H. unfold Command_of_frame. rewrite intToMessageType_unknown by exact H. reflexivity. Qed.

(** C23: Once [Command._id] has reached 2^32, every command built with an
    automatic id overflows the 4-byte id field: [writeMessage] raises
    [OverflowError] for it. *)
Theorem auto_id_overflow (t : MessageType) (d : option (list byte)) (n : Z) :
  2 ^ 32 <= n -> frame_buffer (fst (Command_init t d 0 n)) = Raise OverflowError.
Proof.
  intros Hn. rewrite Command_init_auto. apply frame_buffer_overflow.
  unfold frame_ok. simpl. lia.
Qed.

(** ** Witnesses *)

(** The spec's example: [Command(TRANSFORM, b'', 7)] is the 14 bytes
    [00 x 8 | 07 00 00 00 | 65 00]. *)
Lemma frame_roundtrip_witness :
  frame_buffer (mkCommand TRANSFORM [] 7) =
    Ok [Byte.x00; Byte.x00; Byte.x00; Byte.x00; Byte.x00; Byte.x00; Byte.x00; Byte.x00;
        Byte.x07; Byte.x00; Byte.x00; Byte.x00; Byte.x65; Byte.x00] /\
  cmd_id (mkCommand TRANSFORM [] 7) <> 0 /\
  (let '(frameSize, commandId, messageType) :=
     parse_header (take header_size
       [Byte.x00; Byte.x00; Byte.x00; Byte.x00; Byte.x00; Byte.x00; Byte.x00; Byte.x00;
        Byte.x07; Byte.x00; Byte.x00; Byte.x00; Byte.x65; Byte.x00]) in
   frameSize = Z.of_nat (length (cmd_data (mkCommand TRANSFORM [] 7))) /\
   Command_of_frame commandId messageType
     (take (Z.to_nat frameSize) (drop header_size
       [Byte.x00; Byte.x00; Byte.x00; Byte.x00; Byte.x00; Byte.x00; Byte.x00; Byte.x00;
        Byte.x07; Byte.x00; Byte.x00; Byte.x00; Byte.x65; Byte.x00])) 100
   = Ok (mkCommand TRANSFORM [] 7, 100)).
Proof.
  assert (H1 : frame_buffer (mkCommand TRANSFORM [] 7) =
    Ok [Byte.x00; Byte.x00; Byte.x00; Byte.x00; Byte.x00; Byte.x00; Byte.x00; Byte.x00;
        Byte.x07; Byte.x00; Byte.x00; Byte.x00; Byte.x65; Byte.x00]) by reflexivity.
  assert (H2 : cmd_id (mkCommand TRANSFORM [] 7) <> 0) by (simpl; lia).
  split; [exact H1 | split; [exact H2 | exact (frame_roundtrip _ _ 100 H1 H2)]].
Defined.

Lemma auto_id_overflow_witness :
  2 ^ 32 <= 2 ^ 32 /\
  frame_buffer (fst (Command_init TRANSFORM None 0 (2 ^ 32))) = Raise OverflowError.
Proof.
  assert (H : 2 ^ 32 <= 2 ^ 32) by lia.
  split; [exact H | exact (auto_id_overflow TRANSFORM None (2 ^ 32) H)].
Defined.

(** Type code 0 belongs to no member. *)
Lemma Command_of_frame_unknown_witness :
  (forall t, MessageType_value t <> 0) /\ Command_of_frame 5 0 [] 100 = Raise ValueError.
Proof.
  assert (H : forall t, MessageType_value t <> 0) by (intros t; destruct t; discriminate).
  split; [exact H | exact (Command_of_frame_unknown 5 0 [] 100 H)].
Defined.
