(* ===== verification/ScalarCodec.v ===== *)
(** * ScalarCodec: the scalar encoders and decoders of common.py
    (lines 58-119).

    Each encoder returns the bytes of one value; each decoder takes the
    buffer [data] and the offset [index] and returns the value and the
    offset after it, as the Python functions do.  Booleans and string
    lengths go through [intToBytes] / [bytesToInt] (little-endian);
    floats, unsigned ints, vectors and colours through [struct] in the
    platform's native order ([Platform] of Numeric.v).  Python slicing
    clips out-of-range bounds ([py_slice]): only the [struct] decoders
    fail on a short buffer.

    The theorems: every decoder reads back what its encoder wrote at any
    offset of a larger buffer and advances by the encoded width; the
    colour alpha default; what the decoders do on bytes no encoder
    produced (a bool other than 1, a declared string length past the end
    of the buffer, a short fixed-width field); and that [encodeString]
    rejects a lone surrogate. *)

From Stdlib Require Import ZArith Lia.
From stdpp Require Import base list.
From S2P Require Import Prelude Numeric Utf8.

Open Scope Z_scope.

(** mathutils vectors, read through their attributes. *)
Record Vector2 := { v2x : f32; v2y : f32 }.
Record Vector3 := { v3x : f32; v3y : f32; v3z : f32 }.
Record Vector4 := { v4x : f32; v4y : f32; v4z : f32; v4w : f32 }.

Section Scalars.
Context `{Platform}.

Definition encodeBool (value : bool) : result (list byte) :=
  if value then intToBytes 1 4 else intToBytes 0 4.

Definition decodeBool (data : list byte) (index : nat) : bool * nat :=
  let value := bytesToInt (py_slice data index (index + 4)) in
  if value =? 1 then (true, (index + 4)%nat) else (false, (index + 4)%nat).

Definition encodeString (value : pystr) : result (list byte) :=
  let! encodedValue := utf8_encode value in
  let! len := intToBytes (Z.of_nat (length encodedValue)) 4 in
  Ok (len ++ encodedValue).

Definition decodeString (data : list byte) (index : nat) : result (pystr * nat) :=
  let stringLength := bytesToInt (py_slice data index (index + 4)) in
  let start := (index + 4)%nat in
  let end_ := (start + Z.to_nat stringLength)%nat in
  let! value := utf8_decode (py_slice data start end_) in
  Ok (value, end_).

Definition encodeFloat (value : f32) : list byte := pack_f32 value.

Definition decodeFloat (data : list byte) (index : nat) : result (pyscalar * nat) :=
  let! t := struct_unpack 1 FmtF (py_slice data index (index + 4)) in
  let! v := py_index t 0 in
  Ok (v, (index + 4)%nat).

Definition encodeInt (value : Z) : result (list byte) := pack_u32 value.

Definition decodeInt (data : list byte) (index : nat) : result (pyscalar * nat) :=
  let! t := struct_unpack 1 FmtI (py_slice data index (index + 4)) in
  let! v := py_index t 0 in
  Ok (v, (index + 4)%nat).

Definition encodeVector2 (value : Vector2) : list byte :=
  pack_f32s [v2x value; v2y value].

Definition decodeVector2 (data : list byte) (index : nat) : result (list pyscalar * nat) :=
  let! t := struct_unpack 2 FmtF (py_slice data index (index + 2 * 4)) in
  Ok (t, (index + 2 * 4)%nat).

Definition encodeVector3 (value : Vector3) : list byte :=
  pack_f32s [v3x value; v3y value; v3z value].

Definition decodeVector3 (data : list byte) (index : nat) : result (list pyscalar * nat) :=
  let! t := struct_unpack 3 FmtF (py_slice data index (index + 3 * 4)) in
  Ok (t, (index + 3 * 4)%nat).

(** [encodeColor(value)] for a sequence of floats: three components get
    alpha [1.0]; otherwise components 0 to 3 are read, an [IndexError]
    when there are fewer than four. *)
Definition encodeColor (value : list f32) : result (list byte) :=
  if Nat.eqb (length value) 3 then
    let! r := py_index value 0 in
    let! g := py_index value 1 in
    let! b := py_index value 2 in
    Ok (pack_f32s [r; g; b; f32_one])
  else
    let! r := py_index value 0 in
    let! g := py_index value 1 in
    let! b := py_index value 2 in
    let! a := py_index value 3 in
    Ok (pack_f32s [r; g; b; a]).

Definition decodeColor (data : list byte) (index : nat) : result (list pyscalar * nat) :=
  let! t := struct_unpack 4 FmtF (py_slice data index (index + 4 * 4)) in
  Ok (t, (index + 4 * 4)%nat).

Definition encodeVector4 (value : Vector4) : list byte :=
  pack_f32s [v4x value; v4y value; v4z value; v4w value].

Definition decodeVector4 (data : list byte) (index : nat) : result (list pyscalar * nat) :=
  let! t := struct_unpack 4 FmtF (py_slice data index (index + 4 * 4)) in
  Ok (t, (index + 4 * 4)%nat).
(** The components [encodeColor] writes: alpha 1.0 after three
    components, the first four components otherwise. *)
Definition color_components (value : list f32) : option (list f32) :=
  match value with
  | [r; g; b] => Some [r; g; b; f32_one]
  | r :: g :: b :: a :: _ => Some [r; g; b; a]
  | _ => None
  end.

End Scalars.

Section ScalarLemmas.
Context `{Platform}.

(** Reassociate a buffer so that the piece at the given offset is the
    middle of [pre ++ piece ++ post]. *)
Lemma app_mid_assoc (pre a b post : list byte) :
  pre ++ (a ++ b) ++ post = (pre ++ a) ++ b ++ post.
Proof. rewrite <- !app_assoc. reflexivity. Qed.

Lemma encodeBool_ok (v : bool) : encodeBool v = Ok (le_split 4 (if v then 1 else 0)).
Proof. destruct v; reflexivity. Qed.

(** C27: [decodeBool] reads back the boolean [encodeBool] wrote, at any
    offset, and advances by 4. *)
Theorem decodeBool_encodeBool (v : bool) (bs pre post : list byte) :
  encodeBool v = Ok bs ->
  decodeBool (pre ++ bs ++ post) (length pre) = (v, (length pre + 4)%nat).
Proof.
  rewrite encodeBool_ok. intros [= <-]. unfold decodeBool, bytesToInt.
  rewrite py_slice_mid_len by apply length_le_split.
  rewrite le_combine_split by (destruct v; simpl; lia). destruct v; reflexivity.
Qed.

(** [decodeString] reads back the string [encodeString] wrote, at any
    offset, and advances past its length prefix and its bytes. *)
Lemma decodeString_encodeString_at (s : pystr) (bs pre post : list byte) :
  encodeString s = Ok bs ->
  decodeString (pre ++ bs ++ post) (length pre) = Ok (s, (length pre + length bs)%nat).
Proof.
  unfold encodeString. intros E. rbind_inv E. rbind_inv E. injection E as <-.
  apply bytesToInt_intToBytes in Hm0 as [Hv Hl].
  unfold decodeString. rewrite <- app_assoc, py_slice_mid_len by exact Hl.
  rewrite Hv, Nat2Z.id, app_assoc.
  rewrite (py_slice_at (pre ++ a0)) by (rewrite ?length_app; lia).
  rewrite (utf8_decode_encode s a) by exact Hm. simpl.
  rewrite length_app, Hl. f_equal. f_equal. lia.
Qed.

(** C16: String round trip: the bytes [encodeString] produces are a
    4-byte length prefix that counts exactly the bytes after it, and
    [decodeString] reads them back, at any offset of a larger buffer, as
    the same string, advancing past the whole encoding. *)
Theorem decodeString_encodeString (s : pystr) (bs pre post : list byte) :
  encodeString s = Ok bs ->
  length bs = (4 + Z.to_nat (bytesToInt (take 4 bs)))%nat /\
  decodeString (pre ++ bs ++ post) (length pre) = Ok (s, (length pre + length bs)%nat).
Proof.
  intros E. split; [|apply decodeString_encodeString_at, E].
  unfold encodeString in E. rbind_inv E. rbind_inv E. injection E as <-.
  apply bytesToInt_intToBytes in Hm0 as [Hv Hl].
  rewrite take_app_length' by lia. rewrite Hv, Nat2Z.id, length_app, Hl. reflexivity.
Qed.

(** C34: [encodeString] raises [UnicodeEncodeError] on a string that
    contains a lone surrogate code point, before writing any length. *)
Theorem encodeString_surrogate (s : pystr) (c : Z) :
  c ∈ s -> is_surrogate c = true -> encodeString s = Raise UnicodeEncodeError.
Proof. intros Hin Hs. unfold encodeString. rewrite (utf8_encode_surrogate s c Hin Hs). reflexivity. Qed.

(** C17: [decodeString] never reports a length field that runs past the
    buffer: it decodes the bytes that are there and returns an offset
    beyond the end of the buffer. *)
Theorem decodeString_past_end (data : list byte) (index : nat) (s : pystr) :
  let L := Z.to_nat (bytesToInt (py_slice data index (index + 4))) in
  (length data < index + 4 + L)%nat ->
  utf8_decode (drop (index + 4) data) = Ok s ->
  decodeString data index = Ok (s, (index + 4 + L)%nat).
Proof.
  intros L Hlen Hs.
  assert (E : py_slice data (index + 4) (index + 4 + L) = drop (index + 4) data).
  { unfold py_slice. apply take_ge. rewrite length_drop. lia. }
  unfold decodeString. fold L. rewrite E, Hs. reflexivity.
Qed.

Lemma decode_f32s_mid (fs : list f32) (n : nat) (pre post : list byte) :
  length fs = n -> Forall f32_wf fs ->
  struct_unpack n FmtF (py_slice (pre ++ pack_f32s fs ++ post) (length pre) (length pre + n * 4))
  = Ok (map PyFloat fs).
Proof.
  intros <- Hwf. rewrite py_slice_mid_len by (rewrite length_pack_f32s; lia).
  apply struct_unpack_pack_f32s, Hwf.
Qed.

(** C28: [decodeFloat] reads back the 32-bit float [encodeFloat] wrote, at any
    offset of a larger buffer, and advances by 4. *)
Theorem decodeFloat_encodeFloat (f : f32) (pre post : list byte) :
  f32_wf f ->
  decodeFloat (pre ++ encodeFloat f ++ post) (length pre) = Ok (PyFloat f, (length pre + 4)%nat).
Proof.
  intros Hf. unfold decodeFloat, encodeFloat.
  rewrite py_slice_mid_len by apply length_pack_f32.
  rewrite struct_unpack_1 by apply length_pack_f32.
  rewrite unpack_item_f32 by exact Hf. reflexivity.
Qed.

(** C29: [decodeInt] reads back the unsigned int [encodeInt] wrote, at any
    offset, and advances by 4; both use the platform's native order. *)
Theorem decodeInt_encodeInt (v : Z) (bs pre post : list byte) :
  encodeInt v = Ok bs ->
  decodeInt (pre ++ bs ++ post) (length pre) = Ok (PyInt v, (length pre + 4)%nat).
Proof.
  intros [Hv ->]%pack_u32_Ok_inv. unfold decodeInt.
  rewrite py_slice_mid_len by (rewrite length_order_bytes; apply length_le_split).
  rewrite struct_unpack_1 by (rewrite length_order_bytes; apply length_le_split).
  rewrite unpack_item_u32 by exact Hv. reflexivity.
Qed.

(** C33: A fixed-width decoder on a buffer that ends inside the field raises
    [struct.error]. *)
Lemma decodeFloat_short (data : list byte) (index : nat) :
  (length data < index + 4)%nat -> decodeFloat data index = Raise StructError.
Proof.
  intros Hl. unfold decodeFloat.
  rewrite struct_unpack_size_error by (rewrite length_py_slice; lia). reflexivity.
Qed.

Theorem decodeVector2_encodeVector2 (v : Vector2) (pre post : list byte) :
  Forall f32_wf [v2x v; v2y v] ->
  decodeVector2 (pre ++ encodeVector2 v ++ post) (length pre)
  = Ok ([PyFloat (v2x v); PyFloat (v2y v)], (length pre + 8)%nat).
Proof.
  intros Hwf. unfold decodeVector2, encodeVector2.
  rewrite (decode_f32s_mid _ 2) by (reflexivity || exact Hwf). reflexivity.
Qed.

(** C32: [decodeVector3] reads back the three components [encodeVector3]
    wrote, at any offset, and advances by 12. *)
Theorem decodeVector3_encodeVector3 (v : Vector3) (pre post : list byte) :
  Forall f32_wf [v3x v; v3y v; v3z v] ->
  decodeVector3 (pre ++ encodeVector3 v ++ post) (length pre)
  = Ok ([PyFloat (v3x v); PyFloat (v3y v); PyFloat (v3z v)], (length pre + 12)%nat).
Proof.
  intros Hwf. unfold decodeVector3, encodeVector3.
  rewrite (decode_f32s_mid _ 3) by (reflexivity || exact Hwf). reflexivity.
Qed.

Theorem decodeVector4_encodeVector4 (v : Vector4) (pre post : list byte) :
  Forall f32_wf [v4x v; v4y v; v4z v; v4w v] ->
  decodeVector4 (pre ++ encodeVector4 v ++ post) (length pre)
  = Ok ([PyFloat (v4x v); PyFloat (v4y v); PyFloat (v4z v); PyFloat (v4w v)],
        (length pre + 16)%nat).
Proof.
  intros Hwf. unfold decodeVector4, encodeVector4.
  rewrite (decode_f32s_mid _ 4) by (reflexivity || exact Hwf). reflexivity.
Qed.

(** C31: [encodeColor] on every input length: three components get alpha
    1.0, four or more are cut to the first four, fewer than three raise
    [IndexError]. *)
Theorem encodeColor_spec (value : list f32) :
  encodeColor value = match color_components value with
                      | Some cs => Ok (pack_f32s cs)
                      | None => Raise IndexError
                      end.
Proof. destruct value as [|r [|g [|b [|a rest]]]]; reflexivity. Qed.

Lemma encodeColor_Ok_inv (value : list f32) (bs : list byte) :
  encodeColor value = Ok bs -> exists cs, color_components value = Some cs /\ bs = pack_f32s cs.
Proof.
  destruct value as [|r [|g [|b [|a rest]]]]; simpl; intros E; try discriminate;
    injection E as <-; eauto.
Qed.

Lemma color_components_wf (value cs : list f32) :
  Forall f32_wf value -> color_components value = Some cs ->
  length cs = 4%nat /\ Forall f32_wf cs.
Proof.
  pose proof f32_one_wf.
  intros Hwf Hc. destruct value as [|r [|g [|b [|a rest]]]]; simpl in Hc;
    try discriminate; injection Hc as <-; rewrite ?Forall_cons in Hwf |- *;
    split; naive_solver.
Qed.

(** C30: [decodeColor] reads back the four components [encodeColor] wrote. *)
Theorem decodeColor_encodeColor (value cs : list f32) (bs pre post : list byte) :
  Forall f32_wf value -> color_components value = Some cs -> encodeColor value = Ok bs ->
  decodeColor (pre ++ bs ++ post) (length pre) = Ok (map PyFloat cs, (length pre + 16)%nat).
Proof.
  intros Hwf Hc E. apply encodeColor_Ok_inv in E as (cs' & Hc' & ->).
  rewrite Hc in Hc'. injection Hc' as <-.
  destruct (color_components_wf value cs Hwf Hc) as [Hl Hcs].
  unfold decodeColor. rewrite (decode_f32s_mid _ 4) by assumption. reflexivity.
Qed.
End ScalarLemmas.

(** ** Witnesses *)

(** The spec's example: [encodeBool(True)] is [01 00 00 00]. *)
Lemma decodeBool_encodeBool_witness :
  encodeBool true = Ok [Byte.x01; Byte.x00; Byte.x00; Byte.x00] /\
  decodeBool ([Byte.x07] ++ [Byte.x01; Byte.x00; Byte.x00; Byte.x00] ++ [Byte.x09])
    (length [Byte.x07]) = (true, (length [Byte.x07] + 4)%nat).
Proof.
  assert (H : encodeBool true = Ok [Byte.x01; Byte.x00; Byte.x00; Byte.x00]) by reflexivity.
  split; [exact H | exact (decodeBool_encodeBool true _ [Byte.x07] [Byte.x09] H)].
Defined.

(** The spec's example: [encodeString("hi")] is [02 00 00 00 68 69]. *)
Lemma decodeString_encodeString_witness :
  encodeString [104; 105] = Ok [Byte.x02; Byte.x00; Byte.x00; Byte.x00; Byte.x68; Byte.x69] /\
  (length [Byte.x02; Byte.x00; Byte.x00; Byte.x00; Byte.x68; Byte.x69]
   = (4 + Z.to_nat (bytesToInt (take 4 [Byte.x02; Byte.x00; Byte.x00; Byte.x00; Byte.x68; Byte.x69])))%nat /\
   decodeString ([Byte.x01] ++ [Byte.x02; Byte.x00; Byte.x00; Byte.x00; Byte.x68; Byte.x69] ++ [Byte.x00])
     (length [Byte.x01])
   = Ok ([104; 105], (length [Byte.x01] + length [Byte.x02; Byte.x00; Byte.x00; Byte.x00; Byte.x68; Byte.x69])%nat)).
Proof.
  assert (H : encodeString [104; 105] =
    Ok [Byte.x02; Byte.x00; Byte.x00; Byte.x00; Byte.x68; Byte.x69]) by reflexivity.
  split; [exact H | exact (decodeString_encodeString _ _ [Byte.x01] [Byte.x00] H)].
Defined.

(** "h" followed by a lone high surrogate. *)
Lemma encodeString_surrogate_witness :
  55357 ∈ [104; 55357] /\ is_surrogate 55357 = true /\
  encodeString [104; 55357] = Raise UnicodeEncodeError.
Proof.
  assert (H1 : 55357 ∈ [104; 55357]) by (right; left).
  assert (H2 : is_surrogate 55357 = true) by reflexivity.
  split; [exact H1 | split; [exact H2 | exact (encodeString_surrogate _ _ H1 H2)]].
Defined.

(** A length field of 5 before the two bytes "hi": the string "hi" and
    the offset 9 of a 6-byte buffer. *)
Lemma decodeString_past_end_witness :
  (length [Byte.x05; Byte.x00; Byte.x00; Byte.x00; Byte.x68; Byte.x69]
   < 0 + 4 + Z.to_nat (bytesToInt (py_slice [Byte.x05; Byte.x00; Byte.x00; Byte.x00; Byte.x68; Byte.x69] 0 (0 + 4))))%nat /\
  utf8_decode (drop (0 + 4) [Byte.x05; Byte.x00; Byte.x00; Byte.x00; Byte.x68; Byte.x69]) = Ok [104; 105] /\
  decodeString [Byte.x05; Byte.x00; Byte.x00; Byte.x00; Byte.x68; Byte.x69] 0 = Ok ([104; 105], 9%nat).
Proof.
  assert (H1 : (length [Byte.x05; Byte.x00; Byte.x00; Byte.x00; Byte.x68; Byte.x69]
   < 0 + 4 + Z.to_nat (bytesToInt (py_slice [Byte.x05; Byte.x00; Byte.x00; Byte.x00; Byte.x68; Byte.x69] 0 (0 + 4))))%nat)
    by (vm_compute; lia).
  assert (H2 : utf8_decode (drop (0 + 4) [Byte.x05; Byte.x00; Byte.x00; Byte.x00; Byte.x68; Byte.x69])
    = Ok [104; 105]) by reflexivity.
  split; [exact H1 | split; [exact H2 | exact (decodeString_past_end _ 0 _ H1 H2)]].
Defined.

(** [1.0f] on a little-endian platform. *)
Lemma decodeFloat_encodeFloat_witness :
  f32_wf f32_one /\
  decodeFloat (H := little_endian) ([] ++ encodeFloat (H := little_endian) f32_one ++ [])
    (length (@nil byte)) = Ok (PyFloat f32_one, (length (@nil byte) + 4)%nat).
Proof.
  assert (H : f32_wf f32_one) by (unfold f32_wf, f32_one; simpl; lia).
  split; [exact H | exact (@decodeFloat_encodeFloat little_endian f32_one [] [] H)].
Defined.

Lemma decodeInt_encodeInt_witness :
  encodeInt (H := big_endian) 7 = Ok [Byte.x00; Byte.x00; Byte.x00; Byte.x07] /\
  decodeInt (H := big_endian) ([] ++ [Byte.x00; Byte.x00; Byte.x00; Byte.x07] ++ [Byte.x01])
    (length (@nil byte)) = Ok (PyInt 7, (length (@nil byte) + 4)%nat).
Proof.
  assert (H : encodeInt (H := big_endian) 7 = Ok [Byte.x00; Byte.x00; Byte.x00; Byte.x07])
    by reflexivity.
  split; [exact H | exact (@decodeInt_encodeInt big_endian 7 _ [] [Byte.x01] H)].
Defined.

Lemma decodeVector3_encodeVector3_witness :
  Forall f32_wf [f32_one; F32 0; F32 1073741824] /\
  decodeVector3 (H := little_endian)
    ([] ++ encodeVector3 (H := little_endian) (Build_Vector3 f32_one (F32 0) (F32 1073741824)) ++ [])
    (length (@nil byte))
  = Ok ([PyFloat f32_one; PyFloat (F32 0); PyFloat (F32 1073741824)], (length (@nil byte) + 12)%nat).
Proof.
  assert (H : Forall f32_wf [f32_one; F32 0; F32 1073741824])
    by (repeat constructor; unfold f32_wf, f32_one; simpl; lia).
  split; [exact H|].
  exact (@decodeVector3_encodeVector3 little_endian
           (Build_Vector3 f32_one (F32 0) (F32 1073741824)) [] [] H).
Defined.

(** The spec's example: [encodeColor((1, 0, 0))] decodes to
    [(1, 0, 0, 1.0)]. *)
Lemma decodeColor_encodeColor_witness :
  Forall f32_wf [f32_one; F32 0; F32 0] /\
  color_components [f32_one; F32 0; F32 0] = Some [f32_one; F32 0; F32 0; f32_one] /\
  encodeColor (H := little_endian) [f32_one; F32 0; F32 0]
    = Ok (pack_f32s (H := little_endian) [f32_one; F32 0; F32 0; f32_one]) /\
  decodeColor (H := little_endian)
    ([] ++ pack_f32s (H := little_endian) [f32_one; F32 0; F32 0; f32_one] ++ [])
    (length (@nil byte))
  = Ok (map PyFloat [f32_one; F32 0; F32 0; f32_one], (length (@nil byte) + 16)%nat).
Proof.
  assert (H1 : Forall f32_wf [f32_one; F32 0; F32 0])
    by (repeat constructor; unfold f32_wf, f32_one; simpl; lia).
  assert (H2 : color_components [f32_one; F32 0; F32 0] = Some [f32_one; F32 0; F32 0; f32_one])
    by reflexivity.
  assert (H3 : encodeColor (H := little_endian) [f32_one; F32 0; F32 0]
    = Ok (pack_f32s (H := little_endian) [f32_one; F32 0; F32 0; f32_one])) by reflexivity.
  split; [exact H1 | split; [exact H2 | split; [exact H3|]]].
  exact (@decodeColor_encodeColor little_endian _ _ _ [] [] H1 H2 H3).
Defined.

Lemma decodeFloat_short_witness :
  (length [Byte.x00; Byte.x00] < 0 + 4)%nat /\
  decodeFloat (H := little_endian) [Byte.x00; Byte.x00] 0 = Raise StructError.
Proof.
  assert (H : (length [Byte.x00; Byte.x00] < 0 + 4)%nat) by (simpl; lia).
  split; [exact H | exact (@decodeFloat_short little_endian _ 0 H)].
Defined.
