(* ===== verification/ArrayCodec.v ===== *)
(** * ArrayCodec: the count-prefixed arrays of common.py (lines 121-170).

    An array is a count followed by that many elements.  The decoders
    read the count with [bytesToInt] (little-endian) and the elements
    with [struct] (native order); [encodeStringArray] writes the count
    with [encodeInt], i.e. [struct.pack('I', _)] in NATIVE order.  The
    Python [for _ in range(count)] loops are structural recursions on the
    count ([decodeStrings], [decodeArray_loop], [decodeIntArray_loop]),
    returning the values in the order they were appended.

    [decodeIntArray] returns its local [end], which the loop assigns:
    [decodeIntArray_loop] carries it as an [option nat] ([None] while
    unassigned) so that an empty array raises [UnboundLocalError], as the
    Python function does.

    The theorems: string arrays round-trip on a little-endian platform and
    do not on a big-endian one; every fixed-width array decoder reads the
    wire format of the spec (little-endian count, native elements) back
    into its values; [decodeIntArray] fails on the empty array. *)

From Stdlib Require Import ZArith Lia.
From stdpp Require Import base list.
From S2P Require Import Prelude Numeric Utf8 ScalarCodec.

Open Scope Z_scope.

Section Arrays.
Context `{Platform}.

Fixpoint encodeStrings (values : list pystr) : result (list byte) :=
  match values with
  | [] => Ok []
  | item :: values' =>
      let! b := encodeString item in
      let! rest := encodeStrings values' in
      Ok (b ++ rest)
  end.

Definition encodeStringArray (values : list pystr) : result (list byte) :=
  let! buffer := encodeInt (Z.of_nat (length values)) in
  let! items := encodeStrings values in
  Ok (buffer ++ items).

Fixpoint decodeStrings (data : list byte) (count : nat) (index : nat)
  : result (list pystr * nat) :=
  match count with
  | O => Ok ([], index)
  | S count' =>
      let! '(string, index') := decodeString data index in
      let! '(values, index'') := decodeStrings data count' index' in
      Ok (string :: values, index'')
  end.

Definition decodeStringArray (data : list byte) (index : nat) : result (list pystr * nat) :=
  let count := bytesToInt (py_slice data index (index + 4)) in
  decodeStrings data (Z.to_nat count) (index + 4).

(** The loop of [decodeArray] from [start]; returns the values and the
    final [end] (the final [start]). *)
Fixpoint decodeArray_loop (data : list byte) (n : nat) (k : fmt_kind) (inc : nat)
    (count : nat) (start : nat) : result (list (list pyscalar) * nat) :=
  match count with
  | O => Ok ([], start)
  | S count' =>
      let end_ := (start + inc)%nat in
      let! v := struct_unpack n k (py_slice data start end_) in
      let! '(values, e) := decodeArray_loop data n k inc count' end_ in
      Ok (v :: values, e)
  end.

(** [decodeArray(data, index, schema, inc)] with [schema] the format
    ['<n><k>']. *)
Definition decodeArray (data : list byte) (index : nat) (schema : nat * fmt_kind) (inc : nat)
  : result (list (list pyscalar) * nat) :=
  let count := bytesToInt (py_slice data index (index + 4)) in
  decodeArray_loop data schema.1 schema.2 inc (Z.to_nat count) (index + 4).

Definition decodeFloatArray (data : list byte) (index : nat) :=
  decodeArray data index (1%nat, FmtF) 4.

Fixpoint decodeIntArray_loop (data : list byte) (count : nat) (start : nat)
    (end_ : option nat) : result (list pyscalar * option nat) :=
  match count with
  | O => Ok ([], end_)
  | S count' =>
      let e := (start + 4)%nat in
      let! t := struct_unpack 1 FmtI (py_slice data start e) in
      let! '(values, e') := decodeIntArray_loop data count' e (Some e) in
      Ok (t ++ values, e')
  end.

Definition decodeIntArray (data : list byte) (index : nat) : result (list pyscalar * nat) :=
  let count := bytesToInt (py_slice data index (index + 4)) in
  let! '(values, end_) := decodeIntArray_loop data (Z.to_nat count) (index + 4) None in
  match end_ with
  | Some e => Ok (values, e)
  | None => Raise UnboundLocalError
  end.

Definition decodeInt2Array (data : list byte) (index : nat) :=
  decodeArray data index (2%nat, FmtI) (2 * 4).

Definition decodeInt3Array (data : list byte) (index : nat) :=
  decodeArray data index (3%nat, FmtI) (3 * 4).

Definition decodeVector3Array (data : list byte) (index : nat) :=
  decodeArray data index (3%nat, FmtF) (3 * 4).

Definition decodeVector2Array (data : list byte) (index : nat) :=
  decodeArray data index (2%nat, FmtF) (2 * 4).
End Arrays.

(** The wire format of a fixed-width array as the spec gives it (and as
    the peers write it): the count as 4 bytes little-endian, then each
    element's components packed by [struct] in native order. *)
Definition array_wire `{Platform} (rows : list (list pyscalar)) : list byte :=
  le_split 4 (Z.of_nat (length rows)) ++ mjoin (map (fun r => mjoin (map pack_scalar r)) rows).

(** The same for [decodeIntArray], whose elements are single ints. *)
Definition int_array_wire `{Platform} (xs : list pyscalar) : list byte :=
  le_split 4 (Z.of_nat (length xs)) ++ mjoin (map pack_scalar xs).

Section ArrayLemmas.
Context `{Platform}.

Lemma decodeStrings_encodeStrings (ss : list pystr) (bs pre post : list byte) (i : nat) :
  i = length pre -> encodeStrings ss = Ok bs ->
  decodeStrings (pre ++ bs ++ post) (length ss) i = Ok (ss, (i + length bs)%nat).
Proof.
  intros ->. revert bs pre. induction ss as [|s ss IH]; intros bs pre E; simpl in E.
  - injection E as <-. simpl. rewrite Nat.add_0_r. reflexivity.
  - rbind_inv E. rbind_inv E. injection E as <-. simpl.
    rewrite <- app_assoc, (decodeString_encodeString_at s a) by exact Hm. simpl.
    rewrite app_assoc, <- length_app, (IH _ _ Hm0). simpl.
    rewrite !length_app, Nat.add_assoc. reflexivity.
Qed.

(** C12: On a little-endian platform [decodeStringArray] reads back what
    [encodeStringArray] wrote, at any offset. *)
Theorem decodeStringArray_encodeStringArray_le (ss : list pystr) (bs pre post : list byte) :
  native_order = Little -> encodeStringArray ss = Ok bs ->
  decodeStringArray (pre ++ bs ++ post) (length pre) = Ok (ss, (length pre + length bs)%nat).
Proof.
  intros Hle E. unfold encodeStringArray in E. rbind_inv E. rbind_inv E. injection E as <-.
  apply pack_u32_Ok_inv in Hm as [Hn ->]. rewrite Hle in *. simpl order_bytes.
  unfold decodeStringArray, bytesToInt.
  rewrite <- app_assoc, py_slice_mid_len by apply length_le_split.
  rewrite le_combine_split, Nat2Z.id by (simpl; lia).
  rewrite app_assoc, (decodeStrings_encodeStrings ss a0 (pre ++ le_split 4 _)) by
    (rewrite ?length_app, ?length_le_split; auto).
  rewrite !length_app, length_le_split, Nat.add_assoc. reflexivity.
Qed.

(** On a big-endian platform the count [encodeStringArray] writes is
    read by [decodeStringArray] as 2^24 times the number of strings. *)
Lemma encodeStringArray_count_be (ss : list pystr) (bs : list byte) :
  native_order = Big -> encodeStringArray ss = Ok bs -> (length ss < 256)%nat ->
  bytesToInt (py_slice bs 0 4) = 2 ^ 24 * Z.of_nat (length ss).
Proof.
  intros Hbe E Hl. unfold encodeStringArray in E. rbind_inv E. rbind_inv E. injection E as <-.
  apply pack_u32_Ok_inv in Hm as [Hn ->]. rewrite Hbe. simpl order_bytes.
  unfold py_slice, bytesToInt. simpl. rewrite !le_combine_cons.
  rewrite (Z.div_small (Z.of_nat (length ss))) by lia. rewrite !Z.div_0_l by lia.
  rewrite !byte_val_of_Z_small by lia. change (le_combine (take 0 a0)) with 0. lia.
Qed.

(** [decodeStrings] of [a + b] strings is [a] strings then [b] more. *)
Lemma decodeStrings_add (data : list byte) (a b i : nat) :
  decodeStrings data (a + b) i =
    let! '(v1, i1) := decodeStrings data a i in
    let! '(v2, i2) := decodeStrings data b i1 in
    Ok (v1 ++ v2, i2).
Proof.
  revert i. induction a as [|a IH]; intros i; simpl.
  - destruct (decodeStrings data b i) as [[v2 i2]|e]; reflexivity.
  - destruct (decodeString data i) as [[str i1]|e]; [|reflexivity]. simpl.
    rewrite IH. destruct (decodeStrings data a i1) as [[v1 j]|e]; [|reflexivity]. simpl.
    destruct (decodeStrings data b j) as [[v2 i2]|e]; reflexivity.
Qed.

(** Past the end of the buffer every slice is empty: [decodeString] reads
    a length of 0 and an empty string, and advances by 4. *)
Lemma decodeString_past (data : list byte) (i : nat) :
  (length data <= i)%nat -> decodeString data i = Ok ([], (i + 4)%nat).
Proof.
  intros Hi. unfold decodeString, py_slice.
  rewrite !drop_ge, !take_nil by lia. change (Z.to_nat (bytesToInt [])) with 0%nat.
  rewrite Nat.add_0_r. reflexivity.
Qed.

Lemma decodeStrings_past (data : list byte) (k i : nat) :
  (length data <= i)%nat -> decodeStrings data k i = Ok (replicate k [], (i + 4 * k)%nat).
Proof.
  revert i. induction k as [|k IH]; intros i Hi; simpl.
  - rewrite Nat.add_0_r. reflexivity.
  - rewrite decodeString_past by exact Hi. simpl. rewrite IH by lia. simpl.
    do 2 f_equal. lia.
Qed.

(** C26: On a big-endian platform [decodeStringArray] does not read back
    what [encodeStringArray] wrote: it takes the native-order count of
    [n] strings for 2^24 * n, returns the [n] strings followed by
    2^24 * n - n empty ones read past the end of the buffer, and an
    offset far beyond it. *)
Theorem decodeStringArray_encodeStringArray_be (ss : list pystr) (bs : list byte) :
  native_order = Big -> encodeStringArray ss = Ok bs -> (length ss < 256)%nat ->
  let extra := (Z.to_nat (2 ^ 24 * Z.of_nat (length ss)) - length ss)%nat in
  decodeStringArray bs 0 = Ok (ss ++ replicate extra [], (length bs + 4 * extra)%nat).
Proof.
  intros Hbe E Hl extra. pose proof (encodeStringArray_count_be ss bs Hbe E Hl) as Hc.
  unfold decodeStringArray. change (py_slice bs 0 (0 + 4)) with (py_slice bs 0 4). rewrite Hc.
  unfold encodeStringArray in E. rbind_inv E. rbind_inv E. injection E as <-.
  apply pack_u32_Ok_inv in Hm as [_ Hb].
  replace (Z.to_nat (2 ^ 24 * Z.of_nat (length ss))) with (length ss + extra)%nat
    by (unfold extra; lia).
  rewrite decodeStrings_add.
  rewrite <- (app_nil_r (a ++ a0)), <- app_assoc.
  rewrite (decodeStrings_encodeStrings ss a0 a [] (0 + 4)) by
    (exact Hm0 || (rewrite Hb, length_order_bytes, length_le_split; reflexivity)). simpl.
  rewrite decodeStrings_past
    by (rewrite Hb, !length_app, length_order_bytes, length_le_split; simpl; lia).
  simpl. rewrite app_nil_r, length_app, Hb, length_order_bytes, length_le_split.
  reflexivity.
Qed.

Lemma decodeArray_loop_wire (n inc : nat) (k : fmt_kind) (rows : list (list pyscalar)) :
  inc = (4 * n)%nat ->
  Forall (fun r => length r = n /\ Forall (scalar_wf k) r) rows ->
  forall pre post start, start = length pre ->
  decodeArray_loop (pre ++ mjoin (map (fun r => mjoin (map pack_scalar r)) rows) ++ post)
    n k inc (length rows) start
  = Ok (rows, (start + inc * length rows)%nat).
Proof.
  intros Hinc. induction 1 as [|r rows [Hr Hwf] _ IH]; intros pre post start ->.
  - simpl. rewrite Nat.mul_0_r, Nat.add_0_r. reflexivity.
  - simpl length. simpl map. rewrite mjoin_cons. simpl decodeArray_loop.
    rewrite <- app_assoc, py_slice_at by (rewrite ?length_pack_scalars; lia).
    replace (struct_unpack n k (mjoin (map pack_scalar r))) with (Ok r)
      by (rewrite <- Hr; symmetry; apply struct_unpack_pack_scalars, Hwf). simpl.
    rewrite app_assoc, (IH (pre ++ _)) by (rewrite length_app, length_pack_scalars; lia).
    simpl. rewrite Nat.mul_succ_r. f_equal. f_equal. lia.
Qed.

(** C13: Every fixed-width array decoder ([decodeArray] and the
    [decodeFloatArray], [decodeInt2Array], [decodeInt3Array],
    [decodeVector2Array], [decodeVector3Array] built on it) reads an
    array in the spec's wire format back into its rows of components,
    one tuple per element, and returns the offset after the array. *)
Theorem decodeArray_wire (n inc : nat) (k : fmt_kind) (rows : list (list pyscalar))
    (pre post : list byte) :
  inc = (4 * n)%nat -> Z.of_nat (length rows) < 2 ^ 32 ->
  Forall (fun r => length r = n /\ Forall (scalar_wf k) r) rows ->
  decodeArray (pre ++ array_wire rows ++ post) (length pre) (n, k) inc
  = Ok (rows, (length pre + 4 + inc * length rows)%nat).
Proof.
  intros Hinc Hlen Hrows. unfold decodeArray, array_wire, bytesToInt. simpl fst. simpl snd.
  rewrite <- app_assoc, py_slice_mid_len by apply length_le_split.
  rewrite le_combine_split, Nat2Z.id by (simpl; lia).
  rewrite app_assoc. apply decodeArray_loop_wire; [exact Hinc | exact Hrows |].
  rewrite length_app, length_le_split. reflexivity.
Qed.

Lemma decodeIntArray_loop_wire (xs : list pyscalar) :
  Forall (scalar_wf FmtI) xs ->
  forall pre post start e0, start = length pre ->
  decodeIntArray_loop (pre ++ mjoin (map pack_scalar xs) ++ post) (length xs) start e0
  = Ok (xs, match xs with [] => e0 | _ => Some (start + 4 * length xs)%nat end).
Proof.
  induction 1 as [|x xs Hx Hxs IH]; intros pre post start e0 ->; [reflexivity|].
  simpl length. simpl map. rewrite mjoin_cons. simpl decodeIntArray_loop.
  rewrite <- app_assoc, py_slice_at by (rewrite ?length_pack_scalar; lia).
  rewrite struct_unpack_1, unpack_item_pack_scalar by (apply length_pack_scalar || exact Hx).
  simpl. rewrite app_assoc, (IH (pre ++ _)) by (rewrite length_app, length_pack_scalar; lia).
  simpl. destruct xs; simpl; repeat (f_equal; try lia).
Qed.

(** C14: [decodeIntArray] reads a non-empty int array of the wire format
    back as the flat list of its ints. *)
Theorem decodeIntArray_wire (xs : list pyscalar) (pre post : list byte) :
  xs <> [] -> Z.of_nat (length xs) < 2 ^ 32 -> Forall (scalar_wf FmtI) xs ->
  decodeIntArray (pre ++ int_array_wire xs ++ post) (length pre)
  = Ok (xs, (length pre + 4 + 4 * length xs)%nat).
Proof.
  intros Hne Hlen Hxs. unfold decodeIntArray, int_array_wire, bytesToInt.
  rewrite <- app_assoc, py_slice_mid_len by apply length_le_split.
  rewrite le_combine_split, Nat2Z.id by (simpl; lia).
  rewrite app_assoc, (decodeIntArray_loop_wire xs Hxs _ _ _ None)
    by (rewrite length_app, length_le_split; reflexivity).
  simpl. destruct xs; [congruence|]. reflexivity.
Qed.

(** C15: [decodeIntArray] of an empty array raises [UnboundLocalError]: its
    loop never assigns [end], which it returns. *)
Theorem decodeIntArray_empty (data : list byte) (index : nat) :
  bytesToInt (py_slice data index (index + 4)) = 0 ->
  decodeIntArray data index = Raise UnboundLocalError.
Proof. intros H0. unfold decodeIntArray. rewrite H0. reflexivity. Qed.
End ArrayLemmas.

(** ** Witnesses *)

(** The string array ["hi", ""] on a little-endian platform. *)
Lemma decodeStringArray_encodeStringArray_le_witness :
  native_order (Platform := little_endian) = Little /\
  encodeStringArray (H := little_endian) [[104; 105]; []] =
    Ok [Byte.x02; Byte.x00; Byte.x00; Byte.x00;
        Byte.x02; Byte.x00; Byte.x00; Byte.x00; Byte.x68; Byte.x69;
        Byte.x00; Byte.x00; Byte.x00; Byte.x00] /\
  decodeStringArray ([Byte.x2a] ++ [Byte.x02; Byte.x00; Byte.x00; Byte.x00;
        Byte.x02; Byte.x00; Byte.x00; Byte.x00; Byte.x68; Byte.x69;
        Byte.x00; Byte.x00; Byte.x00; Byte.x00] ++ [])
    (length [Byte.x2a]) = Ok ([[104; 105]; []], (length [Byte.x2a] + 14)%nat).
Proof.
  assert (H1 : native_order (Platform := little_endian) = Little) by reflexivity.
  assert (H2 : encodeStringArray (H := little_endian) [[104; 105]; []] =
    Ok [Byte.x02; Byte.x00; Byte.x00; Byte.x00;
        Byte.x02; Byte.x00; Byte.x00; Byte.x00; Byte.x68; Byte.x69;
        Byte.x00; Byte.x00; Byte.x00; Byte.x00]) by reflexivity.
  split; [exact H1 | split; [exact H2|]].
  exact (@decodeStringArray_encodeStringArray_le little_endian _ _ [Byte.x2a] [] H1 H2).
Defined.

(** The array ["h"] on a big-endian platform: its count is read as
    2^24, so 2^24 - 1 empty strings follow "h". *)
Lemma decodeStringArray_encodeStringArray_be_witness :
  native_order (Platform := big_endian) = Big /\
  encodeStringArray (H := big_endian) [[104]] =
    Ok [Byte.x00; Byte.x00; Byte.x00; Byte.x01;
        Byte.x01; Byte.x00; Byte.x00; Byte.x00; Byte.x68] /\
  (length [[104]] < 256)%nat /\
  decodeStringArray [Byte.x00; Byte.x00; Byte.x00; Byte.x01;
        Byte.x01; Byte.x00; Byte.x00; Byte.x00; Byte.x68] 0
  = Ok ([[104]] ++ replicate (Z.to_nat (2 ^ 24 * Z.of_nat (length [[104]])) - length [[104]]) [],
        (length [Byte.x00; Byte.x00; Byte.x00; Byte.x01;
                 Byte.x01; Byte.x00; Byte.x00; Byte.x00; Byte.x68]
         + 4 * (Z.to_nat (2 ^ 24 * Z.of_nat (length [[104]])) - length [[104]]))%nat).
Proof.
  assert (H1 : native_order (Platform := big_endian) = Big) by reflexivity.
  assert (H2 : encodeStringArray (H := big_endian) [[104]] =
    Ok [Byte.x00; Byte.x00; Byte.x00; Byte.x01;
        Byte.x01; Byte.x00; Byte.x00; Byte.x00; Byte.x68]) by reflexivity.
  assert (H3 : (length [[104]] < 256)%nat) by (simpl; lia).
  split; [exact H1 | split; [exact H2 | split; [exact H3|]]].
  exact (@decodeStringArray_encodeStringArray_be big_endian _ _ H1 H2 H3).
Defined.

(** A [decodeVector2Array] of two vectors on a little-endian platform. *)
Lemma decodeArray_wire_witness :
  (8 = 4 * 2)%nat /\ Z.of_nat (length [[PyFloat f32_one; PyFloat (F32 0)];
                                       [PyFloat (F32 0); PyFloat f32_one]]) < 2 ^ 32 /\
  Forall (fun r => length r = 2%nat /\ Forall (scalar_wf FmtF) r)
    [[PyFloat f32_one; PyFloat (F32 0)]; [PyFloat (F32 0); PyFloat f32_one]] /\
  decodeArray (H := little_endian)
    ([] ++ array_wire (H := little_endian)
            [[PyFloat f32_one; PyFloat (F32 0)]; [PyFloat (F32 0); PyFloat f32_one]] ++ [])
    (length (@nil byte)) (2%nat, FmtF) 8
  = Ok ([[PyFloat f32_one; PyFloat (F32 0)]; [PyFloat (F32 0); PyFloat f32_one]],
        (length (@nil byte) + 4 + 8 * 2)%nat).
Proof.
  assert (H1 : (8 = 4 * 2)%nat) by reflexivity.
  assert (H2 : Z.of_nat (length [[PyFloat f32_one; PyFloat (F32 0)];
                                 [PyFloat (F32 0); PyFloat f32_one]]) < 2 ^ 32) by (simpl; lia).
  assert (H3 : Forall (fun r => length r = 2%nat /\ Forall (scalar_wf FmtF) r)
    [[PyFloat f32_one; PyFloat (F32 0)]; [PyFloat (F32 0); PyFloat f32_one]])
    by (repeat constructor; unfold f32_wf, f32_one; simpl; lia).
  split; [exact H1 | split; [exact H2 | split; [exact H3|]]].
  exact (@decodeArray_wire little_endian 2 8 FmtF _ [] [] H1 H2 H3).
Defined.

Lemma decodeIntArray_wire_witness :
  [PyInt 5; PyInt 7] <> [] /\ Z.of_nat (length [PyInt 5; PyInt 7]) < 2 ^ 32 /\
  Forall (scalar_wf FmtI) [PyInt 5; PyInt 7] /\
  decodeIntArray (H := big_endian) ([Byte.x00] ++ int_array_wire (H := big_endian) [PyInt 5; PyInt 7] ++ [])
    (length [Byte.x00]) = Ok ([PyInt 5; PyInt 7], (length [Byte.x00] + 4 + 4 * 2)%nat).
Proof.
  assert (H1 : [PyInt 5; PyInt 7] <> []) by discriminate.
  assert (H2 : Z.of_nat (length [PyInt 5; PyInt 7]) < 2 ^ 32) by (simpl; lia).
  assert (H3 : Forall (scalar_wf FmtI) [PyInt 5; PyInt 7]) by (repeat constructor; simpl; lia).
  split; [exact H1 | split; [exact H2 | split; [exact H3|]]].
  exact (@decodeIntArray_wire big_endian _ [Byte.x00] [] H1 H2 H3).
Defined.

(** The empty int array [00 00 00 00]. *)
Lemma decodeIntArray_empty_witness :
  bytesToInt (py_slice [Byte.x00; Byte.x00; Byte.x00; Byte.x00] 0 (0 + 4)) = 0 /\
  decodeIntArray (H := little_endian) [Byte.x00; Byte.x00; Byte.x00; Byte.x00] 0
    = Raise UnboundLocalError.
Proof.
  assert (H : bytesToInt (py_slice [Byte.x00; Byte.x00; Byte.x00; Byte.x00] 0 (0 + 4)) = 0)
    by reflexivity.
  split; [exact H | exact (@decodeIntArray_empty little_endian _ 0 H)].
Defined.
