(* ===== verification/Channel.v ===== *)
(** * Channel: the socket operations [readMessage] and [writeMessage] use.

    The interface is the class [Channel]: a channel state [S] with
    - [ch_readable] : [select.select([s], [], [], 0.0001)] has [s] in its
      read list (true), times out (false), or raises (a socket closed on
      this side gives [ValueError], a descriptor beyond [FD_SETSIZE]
      gives [ValueError] too, a failing [select] gives [OSError]);
    - [ch_recv n] : [s.recv(n)], at most [n] bytes, [b''] at end of
      stream, or an exception;
    - [ch_writable] : [select.select([], [s], [], 0.0001)] has [s] in its
      write list, or raises;
    - [ch_send buf] : [s.send(buf)], the number of bytes accepted, or an
      exception.
    Each operation returns the channel's next state, also when it raises.
    [ChannelLaws] are the two promises of the socket API the transport
    relies on: [recv(n)] returns at most [n] bytes, and [send(buf)]
    accepts at most [len(buf)].

    [script] is a concrete channel: the events the peer produces on the
    reading side (data segments, quiet polls, failures of [recv] or of
    the poll; the end of the list is end of stream), the capacity events
    of the writing side, and
    the bytes written so far ([wire]).  It is an instance of both classes
    and is what the executable theorems of Transport.v run on. *)

From Stdlib Require Import ZArith Lia.
From stdpp Require Import base list.
From S2P Require Import Prelude.

Class Channel (S : Type) := {
  ch_readable : S -> result bool * S;
  ch_recv : nat -> S -> result (list byte) * S;
  ch_writable : S -> result bool * S;
  ch_send : list byte -> S -> result nat * S
}.

Class ChannelLaws (S : Type) `{Channel S} := {
  recv_le : forall n s bs s', ch_recv n s = (Ok bs, s') -> (length bs <= n)%nat;
  send_le : forall buf s k s', ch_send buf s = (Ok k, s') -> (k <= length buf)%nat
}.

(** ** A scripted peer *)

(** What the peer does next on the reading side: a segment of data
    arrives, a poll sees nothing yet, the connection fails, or the
    descriptor has become unusable so that [select] itself raises. *)
Inductive rd_event := RData (bs : list byte) | RWait | RError | RPollError.

(** What the peer does next on the writing side: its buffer takes at
    most [k] bytes, a poll finds it full, the connection fails, or
    [select] raises. *)
Inductive wr_event := WAccept (k : nat) | WWait | WError | WPollError.

Record script := {
  incoming : list rd_event;
  out_caps : list wr_event;
  wire : list byte
}.

Definition set_incoming (s : script) (l : list rd_event) : script :=
  {| incoming := l; out_caps := out_caps s; wire := wire s |}.

Definition set_out (s : script) (l : list wr_event) (w : list byte) : script :=
  {| incoming := incoming s; out_caps := l; wire := w |}.

(** A poll sees data, end of stream or a failure of the connection; a
    quiet poll consumes one [RWait]; [RPollError] makes [select] raise
    [ValueError]. *)
Definition script_readable (s : script) : result bool * script :=
  match incoming s with
  | RWait :: rest => (Ok false, set_incoming s rest)
  | RPollError :: rest => (Raise ValueError, set_incoming s rest)
  | _ => (Ok true, s)
  end.

(** A blocking [recv(n)]: waits over quiet periods, returns at most [n]
    bytes of the next segment and keeps the rest of it for the next
    call; at end of stream it returns [b''] and stays there. *)
Fixpoint script_recv_events (n : nat) (l : list rd_event) : result (list byte) * list rd_event :=
  match l with
  | [] => (Ok [], [])
  | RWait :: rest => script_recv_events n rest
  | RError :: rest | RPollError :: rest => (Raise OSError, rest)
  | RData bs :: rest =>
      (Ok (take n bs), if decide (length bs <= n)%nat then rest else RData (drop n bs) :: rest)
  end.

Definition script_recv (n : nat) (s : script) : result (list byte) * script :=
  let '(r, l) := script_recv_events n (incoming s) in (r, set_incoming s l).

Definition script_writable (s : script) : result bool * script :=
  match out_caps s with
  | WWait :: rest => (Ok false, set_out s rest (wire s))
  | WPollError :: rest => (Raise ValueError, set_out s rest (wire s))
  | _ => (Ok true, s)
  end.

(** A blocking [send(buf)]: waits over full periods, then the peer takes
    [min k len(buf)] bytes; with no event left it takes everything. *)
Fixpoint script_send_events (buf : list byte) (l : list wr_event)
  : result nat * list wr_event * list byte :=
  match l with
  | [] => (Ok (length buf), [], buf)
  | WWait :: rest => script_send_events buf rest
  | WError :: rest | WPollError :: rest => (Raise OSError, rest, [])
  | WAccept k :: rest => (Ok (Nat.min k (length buf)), rest, take k buf)
  end.

Definition script_send (buf : list byte) (s : script) : result nat * script :=
  let '(r, l, w) := script_send_events buf (out_caps s) in
  (r, set_out s l (wire s ++ w)).

#[export] Instance script_channel : Channel script := {
  ch_readable := script_readable;
  ch_recv := script_recv;
  ch_writable := script_writable;
  ch_send := script_send
}.

(** The scripted peer keeps the promises of the socket API. *)
#[export] Instance script_laws : ChannelLaws script.
Proof.
  split; simpl.
  - intros n s bs s'. unfold script_recv. generalize (incoming s) as ev.
    induction ev as [|[b| | |] ev IH]; simpl; intros E; try discriminate.
    + injection E as <- _. simpl. lia.
    + injection E as <- _. rewrite length_take. lia.
    + exact (IH E).
  - intros buf s k s'. unfold script_send. generalize (out_caps s) as ev.
    induction ev as [|[c| | |] ev IH]; simpl; intros E; try discriminate.
    + injection E as <- _. lia.
    + injection E as <- _. lia.
    + exact (IH E).
Qed.

(** A peer that never reads and never writes: every poll times out,
    [recv] would return nothing and [send] would take nothing. *)
Record stalled_peer := StalledPeer { polls : nat }.

#[export] Instance stalled_channel : Channel stalled_peer := {
  ch_readable s := (Ok false, StalledPeer (S (polls s)));
  ch_recv n s := (Ok [], s);
  ch_writable s := (Ok false, StalledPeer (S (polls s)));
  ch_send buf s := (Ok 0%nat, s)
}.

#[export] Instance stalled_laws : ChannelLaws stalled_peer.
Proof. split; simpl; intros; injection H as <- _; simpl; lia. Qed.

Definition no_error (l : list wr_event) : Prop :=
  Forall (fun e => e <> WError /\ e <> WPollError) l.

(** ** Reading a scripted segment *)

Lemma set_incoming_twice (s : script) (l1 l2 : list rd_event) :
  set_incoming (set_incoming s l1) l2 = set_incoming s l2.
Proof. reflexivity. Qed.

Lemma set_incoming_same (s : script) (l : list rd_event) :
  incoming s = l -> set_incoming s l = s.
Proof. destruct s; simpl; intros ->. reflexivity. Qed.

Lemma incoming_set_incoming (s : script) (l : list rd_event) : incoming (set_incoming s l) = l.
Proof. reflexivity. Qed.

#[export] Hint Rewrite set_incoming_twice incoming_set_incoming : mixer_rw.

(** [recv(n)] of a segment no longer than [n] returns all of it. *)
Lemma script_recv_whole (n : nat) (bs : list byte) (rest : list rd_event) (s : script) :
  incoming s = RData bs :: rest -> (length bs <= n)%nat ->
  script_recv n s = (Ok bs, set_incoming s rest).
Proof.
  intros E Hl. unfold script_recv. rewrite E. simpl.
  rewrite take_ge by lia. destruct (decide (length bs <= n)%nat); [reflexivity | lia].
Qed.

(** [recv(n)] of a longer segment returns its first [n] bytes and keeps
    the others as the next segment. *)
Lemma script_recv_part (n : nat) (bs : list byte) (rest : list rd_event) (s : script) :
  incoming s = RData bs :: rest -> (n < length bs)%nat ->
  script_recv n s = (Ok (take n bs), set_incoming s (RData (drop n bs) :: rest)).
Proof.
  intros E Hl. unfold script_recv. rewrite E. simpl.
  destruct (decide (length bs <= n)%nat); [lia | reflexivity].
Qed.

(** At end of stream [recv] returns [b''] and the channel stays there. *)
Lemma script_recv_eof (n : nat) (s : script) :
  incoming s = [] -> script_recv n s = (Ok [], s).
Proof. intros E. unfold script_recv. rewrite E. simpl. rewrite set_incoming_same; auto. Qed.

(** ** Writing to a scripted peer *)

Lemma set_out_twice (s : script) (l1 l2 : list wr_event) (w1 w2 : list byte) :
  set_out (set_out s l1 w1) l2 w2 = set_out s l2 w2.
Proof. reflexivity. Qed.

Lemma set_out_same (s : script) : set_out s (out_caps s) (wire s) = s.
Proof. destruct s; reflexivity. Qed.
