(* ===== verification/Transport.v ===== *)
(** * Transport: [readMessage] and [writeMessage] of common.py
    (lines 172-215) over any [Channel].

    - [recv_payload] is the [while currentSize != 0] loop of
      [readMessage] (lines 184-189); [read_frame] is the body of the
      [try] block (lines 178-190); [readMessage] adds the [None] socket
      test, the readiness poll and the [except] clauses, which turn every
      exception of the [try] block into [ClientDisconnected] (lines
      192-196); an exception of the poll itself (line 175, before the
      [try]) escapes unchanged, as does one of the poll in the send loop.
    - [send_loop] is the [while remainingSize > 0] loop of
      [writeMessage] (lines 210-215); [writeMessage] builds the buffer
      with [frame_buffer] (Frame.v).
    Both loops are unbounded in Python.  They are given a fuel: [None]
    means "still looping after [fuel] iterations", so a theorem that a
    call returns is a theorem that some fuel gives [Some _], and a
    theorem that a call never returns says [None] for every fuel.

    The Python [Command._id] counter is the [next_id] argument: reading a
    frame with id 0 allocates from it (Frame.v).

    The theorems: over any lawful channel, every error of [readMessage]
    is [ClientDisconnected], a quiet poll returns [None], and a returned
    payload fits its 8-byte length field; over the scripted peer, a frame
    is delivered whole however its payload is segmented, back-to-back
    frames are read in order, and what [writeMessage] sends is read back;
    and the failure modes: a short first segment or a closed socket is a
    disconnection, a close in mid-payload and a peer that is never
    writable make the loops run for ever, a send error escapes as
    [OSError]. *)

From Stdlib Require Import ZArith Lia.
From stdpp Require Import base list.
From S2P Require Import Prelude Numeric Message Frame Channel.

Open Scope Z_scope.

Section Transport.
Context {S : Type} `{Channel S}.

Fixpoint recv_payload (fuel : nat) (currentSize : Z) (msg : list byte) (s : S)
  : option (result (list byte) * S) :=
  match fuel with
  | O => None
  | Datatypes.S fuel' =>
      if currentSize =? 0 then Some (Ok msg, s)
      else
        match ch_recv (Z.to_nat currentSize) s with
        | (Ok tmp, s') =>
            recv_payload fuel' (currentSize - Z.of_nat (length tmp)) (msg ++ tmp) s'
        | (Raise e, s') => Some (Raise e, s')
        end
  end.

Definition read_frame (fuel : nat) (s : S) (next_id : Z)
  : option (result (Command * Z) * S) :=
  let '(r, s1) := ch_recv header_size s in
  match r with
  | Raise e => Some (Raise e, s1)
  | Ok msg =>
      if (length msg <? header_size)%nat then Some (Raise ClientDisconnected, s1)
      else
        let '(frameSize, commandId, messageType) := parse_header msg in
        match recv_payload fuel frameSize [] s1 with
        | None => None
        | Some (Raise e, s2) => Some (Raise e, s2)
        | Some (Ok payload, s2) =>
            Some (Command_of_frame commandId messageType payload next_id, s2)
        end
  end.

Definition readMessage (fuel : nat) (socket : option S) (next_id : Z)
  : option (result (option Command) * option S * Z) :=
  match socket with
  | None => Some (Ok None, None, next_id)
  | Some s =>
      match ch_readable s with
      | (Raise e, s1) => Some (Raise e, Some s1, next_id)
      | (Ok true, s1) =>
          match read_frame fuel s1 next_id with
          | None => None
          | Some (Ok (c, n'), s2) => Some (Ok (Some c), Some s2, n')
          | Some (Raise _, s2) => Some (Raise ClientDisconnected, Some s2, next_id)
          end
      | (Ok false, s1) => Some (Ok None, Some s1, next_id)
      end
  end.

Fixpoint send_loop (fuel : nat) (buffer : list byte) (remainingSize : Z)
    (currentIndex : nat) (s : S) : option (result unit * S) :=
  match fuel with
  | O => None
  | Datatypes.S fuel' =>
      if 0 <? remainingSize then
        match ch_writable s with
        | (Raise e, s1) => Some (Raise e, s1)
        | (Ok true, s1) =>
            match ch_send (drop currentIndex buffer) s1 with
            | (Ok sent, s2) =>
                send_loop fuel' buffer (remainingSize - Z.of_nat sent)
                  (currentIndex + sent) s2
            | (Raise e, s2) => Some (Raise e, s2)
            end
        | (Ok false, s1) => send_loop fuel' buffer remainingSize currentIndex s1
        end
      else Some (Ok tt, s)
  end.

Definition writeMessage (fuel : nat) (socket : option S) (command : Command)
  : option (result unit * option S) :=
  match socket with
  | None => Some (Ok tt, None)
  | Some s =>
      match frame_buffer command with
      | Raise e => Some (Raise e, Some s)
      | Ok buffer =>
          match send_loop fuel buffer (Z.of_nat (length buffer)) 0 s with
          | None => None
          | Some (r, s') => Some (r, Some s')
          end
      end
  end.
End Transport.

(** The segments left after the header has been taken from the first
    one. *)
Definition after_header (d1 : list byte) (cs : list (list byte)) : list (list byte) :=
  match d1 with [] => cs | _ => d1 :: cs end.

(** [k] successive [readMessage] calls, as the room-management loop
    makes them: the results in order, the socket and the counter after. *)
Fixpoint read_messages {St : Type} `{Channel St} (fuel k : nat) (sock : option St) (n : Z)
  : option (list (result (option Command)) * option St * Z) :=
  match k with
  | O => Some ([], sock, n)
  | Datatypes.S k' =>
      match readMessage fuel sock n with
      | None => None
      | Some (r, sock1, n1) =>
          match read_messages fuel k' sock1 n1 with
          | None => None
          | Some (rs, sock2, n2) => Some (r :: rs, sock2, n2)
          end
      end
  end.

(** ** Properties over any channel *)

Section TransportLaws.
Context {S : Type} `{ChannelLaws S}.

(** C21: Every exception [readMessage] raises is [ClientDisconnected],
    except one raised by the readiness poll, which sits before the [try]
    and escapes unchanged; in every case the id counter is left alone. *)
Theorem readMessage_error (fuel : nat) (sock sock' : option S) (n n' : Z) (e : exn) :
  readMessage fuel sock n = Some (Raise e, sock', n') ->
  n' = n /\
  (e = ClientDisconnected \/
   exists s s1, sock = Some s /\ ch_readable s = (Raise e, s1) /\ sock' = Some s1).
Proof.
  destruct sock as [s|]; simpl; intros E; [|congruence].
  destruct (ch_readable s) as [[[]|e1] s1] eqn:R; [| congruence |].
  - destruct (read_frame fuel s1 n) as [[[[c n2]|e2] s2]|]; try discriminate.
    injection E as <- _ <-. auto.
  - injection E as -> <- <-. split; [reflexivity|]. right. eauto.
Qed.

(** The payload loop collects exactly [currentSize] more bytes. *)
Lemma recv_payload_Ok (fuel : nat) (size : Z) (acc msg : list byte) (s s' : S) :
  0 <= size -> recv_payload fuel size acc s = Some (Ok msg, s') ->
  exists got, msg = acc ++ got /\ Z.of_nat (length got) = size.
Proof.
  revert size acc s. induction fuel as [|fuel IH]; intros size acc s Hs E; [discriminate|].
  simpl in E. destruct (Z.eqb_spec size 0) as [->|Hz].
  - injection E as <- _. exists []. rewrite app_nil_r. auto.
  - destruct (ch_recv (Z.to_nat size) s) as [[tmp|e] s1] eqn:R; [|discriminate].
    apply recv_le in R.
    apply IH in E as [got [-> Hgot]]; [|lia].
    exists (tmp ++ got). rewrite app_assoc, length_app. split; [reflexivity|lia].
Qed.

(** The header [readMessage] accepts is exactly 14 bytes. *)
Lemma read_frame_Ok (fuel : nat) (s s' : S) (n n' : Z) (c : Command) :
  read_frame fuel s n = Some (Ok (c, n'), s') ->
  exists msg, length msg = header_size /\
    Z.of_nat (length (cmd_data c)) = (parse_header msg).1.1.
Proof.
  unfold read_frame. destruct (ch_recv header_size s) as [[msg|e] s1] eqn:R; [|discriminate].
  apply recv_le in R.
  destruct (Nat.ltb_spec (length msg) header_size); [discriminate|].
  destruct (parse_header msg) as [[frameSize commandId] messageType] eqn:P.
  destruct (recv_payload fuel frameSize [] s1) as [[[payload|e] s2]|] eqn:E; try discriminate.
  unfold Command_of_frame. destruct (intToMessageType messageType) as [t|]; [|discriminate].
  simpl. destruct (Command_init t (Some payload) commandId n) as [c0 n0] eqn:CI.
  intros [= <- _]. exists msg. split; [lia|].
  pose proof (Command_init_fields t (Some payload) commandId n) as [_ Hd].
  rewrite CI in Hd. simpl in Hd. rewrite Hd. simpl.
  unfold parse_header in P. injection P as Hf _ _.
  apply recv_payload_Ok in E as [got [-> Hgot]].
  - rewrite Hf. exact Hgot.
  - rewrite <- Hf. apply le_combine_bound.
Qed.

(** C36: A command [readMessage] returns has a payload shorter than 2^64
    bytes: its length is the 8-byte length field of its header. *)
Theorem readMessage_payload_bound (fuel : nat) (s : S) (sock' : option S) (n n' : Z) (c : Command) :
  readMessage fuel (Some s) n = Some (Ok (Some c), sock', n') ->
  Z.of_nat (length (cmd_data c)) < 2 ^ 64.
Proof.
  simpl. intros E. destruct (ch_readable s) as [[[]|e1] s1]; try congruence.
  destruct (read_frame fuel s1 n) as [[[[c' n2]|e2] s2]|] eqn:R; try congruence.
  injection E as <- _ _. apply read_frame_Ok in R as (msg & Hl & ->).
  unfold parse_header. simpl. pose proof (le_combine_bound (py_slice msg 0 8)) as B.
  rewrite length_py_slice in B.
  assert (Z.of_nat (Nat.min (8 - 0) (length msg - 0)) <= 8) by lia.
  assert (2 ^ (8 * Z.of_nat (Nat.min (8 - 0) (length msg - 0))) <= 2 ^ 64)
    by (apply Z.pow_le_mono_r; lia).
  unfold bytesToInt. lia.
Qed.
End TransportLaws.

(** C10: No message yet: when the readiness poll times out, [readMessage]
    returns [None] without reading, raising or touching the counter. *)
Theorem readMessage_no_message {S : Type} `{Channel S} (fuel : nat) (s s1 : S) (n : Z) :
  ch_readable s = (Ok false, s1) -> readMessage fuel (Some s) n = Some (Ok None, Some s1, n).
Proof. intros E. simpl. rewrite E. reflexivity. Qed.

(** ** Reading from a scripted peer *)

Lemma mjoin_after_header (d1 : list byte) (cs : list (list byte)) :
  mjoin (after_header d1 cs) = d1 ++ mjoin cs.
Proof. destruct d1; reflexivity. Qed.

(** The payload loop reads whole segments until it has [size] bytes. *)
Lemma recv_payload_segments (cs : list (list byte)) (rest : list rd_event) :
  Forall (fun c => c <> []) cs ->
  forall (fuel : nat) (acc : list byte) (s : script),
  (length cs < fuel)%nat -> incoming s = map RData cs ++ rest ->
  recv_payload fuel (Z.of_nat (length (mjoin cs))) acc s
  = Some (Ok (acc ++ mjoin cs), set_incoming s rest).
Proof.
  induction 1 as [|c cs Hc Hcs IH]; intros [|fuel] acc s Hf E; simpl in Hf; try lia.
  - simpl. rewrite app_nil_r, set_incoming_same by exact E. reflexivity.
  - rewrite mjoin_cons, length_app.
    assert (Hl : (0 < length c)%nat) by (destruct c; simpl; [congruence | lia]).
    cbn [recv_payload].
    destruct (Z.eqb_spec (Z.of_nat (length c + length (mjoin cs))) 0); [lia|].
    simpl ch_recv. rewrite (script_recv_whole _ c (map RData cs ++ rest)) by (exact E || lia).
    replace (Z.of_nat (length c + length (mjoin cs)) - Z.of_nat (length c))
      with (Z.of_nat (length (mjoin cs))) by lia.
    rewrite IH by (reflexivity || lia). rewrite app_assoc. reflexivity.
Qed.

(** With a closed connection the payload loop never ends: [recv] keeps
    returning [b''] and [currentSize] never reaches 0. *)
Lemma recv_payload_eof (fuel : nat) (size : Z) (acc : list byte) (s : script) :
  incoming s = [] -> size <> 0 -> recv_payload fuel size acc s = None.
Proof.
  intros E Hs. revert acc. induction fuel as [|fuel IH]; intros acc; [reflexivity|].
  simpl. destruct (Z.eqb_spec size 0); [lia|].
  simpl ch_recv. rewrite script_recv_eof by exact E. simpl.
  rewrite Z.sub_0_r. apply IH.
Qed.

(** The segments that arrive before the connection closes are read, and
    then the loop never ends if the payload was not complete. *)
Lemma recv_payload_segments_eof (cs : list (list byte)) :
  Forall (fun c => c <> []) cs ->
  forall (fuel : nat) (size : Z) (acc : list byte) (s : script),
  Z.of_nat (length (mjoin cs)) < size -> incoming s = map RData cs ->
  recv_payload fuel size acc s = None.
Proof.
  induction 1 as [|c cs Hc Hcs IH]; intros fuel size acc s Hsz E.
  - apply recv_payload_eof; [exact E | simpl in Hsz; lia].
  - destruct fuel as [|fuel]; [reflexivity|]. simpl recv_payload.
    rewrite mjoin_cons, length_app in Hsz.
    destruct (Z.eqb_spec size 0); [lia|].
    simpl ch_recv. rewrite (script_recv_whole _ c (map RData cs)) by (exact E || lia).
    apply IH; [lia | reflexivity].
Qed.

Lemma after_header_nonempty (d1 : list byte) (cs : list (list byte)) :
  Forall (fun c => c <> []) cs -> Forall (fun c => c <> []) (after_header d1 cs).
Proof. intros H. destruct d1; simpl; [exact H | constructor; [discriminate | exact H]]. Qed.

Lemma length_after_header (d1 : list byte) (cs : list (list byte)) :
  (length (after_header d1 cs) <= length cs + 1)%nat.
Proof. destruct d1; simpl; lia. Qed.

(** [recv(14)] on a first segment that starts with the whole header. *)
Lemma script_recv_header (c : Command) (d1 : list byte) (cs : list (list byte))
    (rest : list rd_event) (s : script) :
  incoming s = RData (header_of c ++ d1) :: map RData cs ++ rest ->
  script_recv header_size s
  = (Ok (header_of c), set_incoming s (map RData (after_header d1 cs) ++ rest)).
Proof.
  intros E. destruct d1 as [|b d1'].
  - rewrite app_nil_r in E. rewrite (script_recv_whole _ _ _ _ E) by (rewrite length_header_of; unfold header_size; lia).
    reflexivity.
  - rewrite (script_recv_part _ _ _ _ E) by (rewrite length_app, length_header_of; unfold header_size; simpl; lia).
    rewrite take_app_length', drop_app_length' by (rewrite length_header_of; reflexivity).
    reflexivity.
Qed.

(** C3: Receiving: a command whose header arrives in one segment is read
    back whole, however its payload is cut into segments, and the
    channel is left at the events after it. *)
Theorem readMessage_delivers (c : Command) (d1 : list byte) (cs : list (list byte))
    (rest : list rd_event) (s : script) (fuel : nat) (n : Z) :
  frame_ok c -> cmd_id c <> 0 -> Forall (fun x => x <> []) cs ->
  d1 ++ mjoin cs = cmd_data c -> (length cs + 1 < fuel)%nat ->
  incoming s = RData (header_of c ++ d1) :: map RData cs ++ rest ->
  readMessage fuel (Some s) n = Some (Ok (Some c), Some (set_incoming s rest), n).
Proof.
  intros Hok Hid Hcs Hd Hf E.
  unfold readMessage. simpl ch_readable. unfold script_readable. rewrite E.
  unfold read_frame. simpl ch_recv. rewrite (script_recv_header c d1 cs rest s E).
  rewrite length_header_of, parse_header_of by exact Hok. simpl.
  rewrite <- Hd, <- mjoin_after_header.
  pose proof (length_after_header d1 cs).
  rewrite (recv_payload_segments (after_header d1 cs) rest (after_header_nonempty d1 cs Hcs))
    by (lia || reflexivity).
  rewrite mjoin_after_header, Hd. simpl. rewrite Command_of_frame_fields by exact Hid.
  rewrite set_incoming_twice. reflexivity.
Qed.

(** C8: A header cut across segments is taken for a disconnection: [recv(14)]
    returns the first segment only and [readMessage] raises
    [ClientDisconnected], although the peer is connected and the rest of
    the frame follows. *)
Theorem readMessage_split_header (h : list byte) (rest : list rd_event) (s : script)
    (fuel : nat) (n : Z) :
  (length h < header_size)%nat -> incoming s = RData h :: rest ->
  readMessage fuel (Some s) n = Some (Raise ClientDisconnected, Some (set_incoming s rest), n).
Proof.
  intros Hl E. unfold readMessage. simpl ch_readable. unfold script_readable. rewrite E.
  unfold read_frame. simpl ch_recv. rewrite (script_recv_whole _ h rest s E) by lia.
  destruct (Nat.ltb_spec (length h) header_size); [reflexivity | lia].
Qed.

(** C7: A peer that closes the connection before the whole payload has
    arrived leaves [readMessage] looping for ever, however the part it
    did send was cut into segments: at end of stream [recv] returns
    [b''], which the payload loop does not test. *)
Theorem readMessage_eof_hangs (c : Command) (d1 : list byte) (cs : list (list byte))
    (s : script) (n : Z) :
  frame_ok c -> Forall (fun x => x <> []) cs ->
  (length (d1 ++ mjoin cs) < length (cmd_data c))%nat ->
  incoming s = RData (header_of c ++ d1) :: map RData cs ->
  forall fuel, readMessage fuel (Some s) n = None.
Proof.
  intros Hok Hcs Hl E fuel. unfold readMessage. simpl ch_readable. unfold script_readable.
  rewrite E. unfold read_frame. simpl ch_recv.
  rewrite (script_recv_header c d1 cs [] s) by (rewrite E, app_nil_r; reflexivity).
  rewrite length_header_of, parse_header_of by exact Hok. simpl.
  rewrite (recv_payload_segments_eof (after_header d1 cs)); [reflexivity | | | ].
  - apply after_header_nonempty, Hcs.
  - rewrite mjoin_after_header. lia.
  - simpl. rewrite app_nil_r. reflexivity.
Qed.

(** C9: A peer that has closed the connection: the poll reports the socket
    readable, [recv(14)] returns [b''] and [readMessage] raises
    [ClientDisconnected] rather than returning a truncated command. *)
Theorem readMessage_closed (s : script) (fuel : nat) (n : Z) :
  incoming s = [] -> readMessage fuel (Some s) n = Some (Raise ClientDisconnected, Some s, n).
Proof.
  intros E. unfold readMessage. simpl ch_readable. unfold script_readable. rewrite E.
  unfold read_frame. simpl ch_recv. rewrite script_recv_eof by exact E. reflexivity.
Qed.

(** ** Writing to a scripted peer *)

Lemma take_drop_min (k : nat) (l : list byte) :
  take k l ++ drop (Nat.min k (length l)) l = l.
Proof.
  destruct (Nat.le_ge_cases k (length l)).
  - rewrite Nat.min_l by lia. apply take_drop.
  - rewrite Nat.min_r, take_ge, drop_all by lia. apply app_nil_r.
Qed.

(** With a peer that never fails, the send loop transmits the rest of the
    buffer, in order, within one iteration per capacity event plus two. *)
Lemma send_loop_script (buffer : list byte) (fuel : nat) :
  forall (idx : nat) (s : script),
  no_error (out_caps s) -> (length (out_caps s) + 1 < fuel)%nat -> (idx <= length buffer)%nat ->
  exists caps', send_loop fuel buffer (Z.of_nat (length buffer - idx)) idx s
    = Some (Ok tt, set_out s caps' (wire s ++ drop idx buffer)).
Proof.
  induction fuel as [|fuel IH]; intros idx s Hne Hf Hidx; [lia|].
  cbn [send_loop]. destruct (Z.ltb_spec 0 (Z.of_nat (length buffer - idx))) as [Hr|Hr].
  2: { exists (out_caps s). rewrite drop_ge, app_nil_r, set_out_same by lia. reflexivity. }
  simpl ch_writable. unfold script_writable.
  destruct (out_caps s) as [|[k| | |] caps] eqn:Ec.
  - simpl ch_send. unfold script_send. rewrite Ec. simpl.
    destruct fuel as [|fuel]; [lia|]. cbn [send_loop].
    rewrite length_drop. destruct (Z.ltb_spec 0 (Z.of_nat (length buffer - idx)
      - Z.of_nat (length buffer - idx))); [lia|]. eauto.
  - simpl ch_send. unfold script_send. rewrite Ec. simpl.
    inversion Hne as [|? ? ? Hne']; subst.
    destruct (IH (idx + Nat.min k (length (drop idx buffer)))%nat (set_out s caps (wire s ++ take k (drop idx buffer))))
      as [caps' Hc]; [exact Hne' | simpl in Hf |- *; lia | rewrite length_drop; lia |].
    exists caps'. rewrite length_drop in *.
    replace (Z.of_nat (length buffer - idx) - Z.of_nat (Nat.min k (length buffer - idx)))
      with (Z.of_nat (length buffer - (idx + Nat.min k (length buffer - idx)))) by lia.
    rewrite Hc, set_out_twice. simpl. rewrite <- app_assoc, <- drop_drop.
    rewrite <- (length_drop buffer idx), take_drop_min. reflexivity.
  - inversion Hne as [|? ? ? Hne']; subst.
    destruct (IH idx (set_out s caps (wire s))) as [caps' Hc];
      [exact Hne' | simpl in Hf |- *; lia | exact Hidx |].
    exists caps'. rewrite Hc, set_out_twice. reflexivity.
  - inversion Hne as [|? ? [? _]]. congruence.
  - inversion Hne as [|? ? [_ ?]]. congruence.
Qed.

(** C18: Sending: to a peer that never fails, [writeMessage] returns and the
    peer has received exactly the frame of the command, after what it
    had before. *)
Theorem writeMessage_sends (c : Command) (s : script) (fuel : nat) :
  frame_ok c -> no_error (out_caps s) -> (length (out_caps s) + 1 < fuel)%nat ->
  exists caps', writeMessage fuel (Some s) c
    = Some (Ok tt, Some (set_out s caps' (wire s ++ header_of c ++ cmd_data c))).
Proof.
  intros Hok Hne Hf. unfold writeMessage. rewrite frame_buffer_ok by exact Hok.
  destruct (send_loop_script (header_of c ++ cmd_data c) fuel 0 s Hne Hf ltac:(lia))
    as [caps' Hc].
  rewrite Nat.sub_0_r, drop_0 in Hc. rewrite Hc. eauto.
Qed.

(** C20: A failure of [send] escapes [writeMessage] as the socket's own
    [OSError]: it is not turned into [ClientDisconnected] as on the
    reading side. *)
Theorem writeMessage_send_error (c : Command) (s : script) (caps : list wr_event) (fuel : nat) :
  frame_ok c -> out_caps s = WError :: caps -> (0 < fuel)%nat ->
  writeMessage fuel (Some s) c = Some (Raise OSError, Some (set_out s caps (wire s ++ []))).
Proof.
  intros Hok E Hf. unfold writeMessage. rewrite frame_buffer_ok by exact Hok.
  destruct fuel as [|fuel]; [lia|]. cbn [send_loop].
  rewrite length_app, length_header_of.
  destruct (Z.ltb_spec 0 (Z.of_nat (header_size + length (cmd_data c)))) as [_|Hz];
    [|unfold header_size in Hz; lia].
  simpl ch_writable. unfold script_writable. rewrite E.
  simpl ch_send. unfold script_send. rewrite E. reflexivity.
Qed.

(** C19: Against a peer that never becomes writable, [writeMessage] never
    returns: its send loop has no timeout. *)
Theorem writeMessage_stalls {S : Type} `{ChannelLaws S} (fuel : nat) (s : S) (c : Command) :
  (forall s', fst (ch_writable s') = Ok false) -> frame_ok c ->
  writeMessage fuel (Some s) c = None.
Proof.
  intros Hw Hok. unfold writeMessage. rewrite frame_buffer_ok by exact Hok.
  assert (Hl : 0 < Z.of_nat (length (header_of c ++ cmd_data c)))
    by (rewrite length_app, length_header_of; unfold header_size; lia).
  revert s. induction fuel as [|fuel IH]; intros s; [reflexivity|].
  cbn [send_loop]. destruct (Z.ltb_spec 0 (Z.of_nat (length (header_of c ++ cmd_data c))));
    [|lia].
  specialize (Hw s). destruct (ch_writable s) as [w s1]. simpl in Hw. subst w.
  specialize (IH s1). destruct (send_loop fuel _ _ _ s1) as [[? ?]|]; [discriminate IH | reflexivity].
Qed.

(** ** Several frames in one segment *)

(** The payload loop on a segment that starts with the payload takes
    exactly the payload and keeps the rest of the segment. *)
Lemma recv_payload_prefix (d more : list byte) (rest : list rd_event) (acc : list byte)
    (s : script) (fuel : nat) :
  d <> [] -> (1 < fuel)%nat -> incoming s = RData (d ++ more) :: rest ->
  recv_payload fuel (Z.of_nat (length d)) acc s
  = Some (Ok (acc ++ d), set_incoming s (map RData (after_header more []) ++ rest)).
Proof.
  intros Hd Hf E. destruct fuel as [|[|fuel]]; [lia | lia |].
  assert (Hl : (0 < length d)%nat) by (destruct d; simpl; [congruence | lia]).
  cbn [recv_payload]. destruct (Z.eqb_spec (Z.of_nat (length d)) 0); [lia|].
  simpl ch_recv. rewrite Nat2Z.id. destruct more as [|b more'].
  - rewrite app_nil_r in E. rewrite (script_recv_whole _ d rest s E) by lia.
    rewrite Z.sub_diag. reflexivity.
  - rewrite (script_recv_part _ _ rest s E) by (rewrite length_app; simpl; lia).
    rewrite take_app_length, drop_app_length, Z.sub_diag. reflexivity.
Qed.

(** A frame followed by more bytes in the same segment: [readMessage]
    takes exactly that frame and leaves the rest for the next call. *)
Lemma readMessage_segment (c : Command) (more : list byte) (rest : list rd_event)
    (s : script) (fuel : nat) (n : Z) :
  frame_ok c -> cmd_id c <> 0 -> (1 < fuel)%nat ->
  incoming s = RData (frame_bytes c ++ more) :: rest ->
  readMessage fuel (Some s) n
  = Some (Ok (Some c), Some (set_incoming s (map RData (after_header more []) ++ rest)), n).
Proof.
  intros Hok Hid Hf E. unfold frame_bytes in E. rewrite <- app_assoc in E.
  unfold readMessage. simpl ch_readable. unfold script_readable. rewrite E.
  unfold read_frame. simpl ch_recv.
  rewrite (script_recv_header c (cmd_data c ++ more) [] rest s) by (rewrite E; reflexivity).
  rewrite length_header_of, parse_header_of by exact Hok. simpl.
  destruct (cmd_data c) as [|b d] eqn:Hd.
  - destruct fuel as [|fuel]; [lia|]. simpl. rewrite <- Hd, Command_of_frame_fields by exact Hid.
    destruct more; reflexivity.
  - rewrite (recv_payload_prefix (b :: d) more rest) by (discriminate || lia || reflexivity).
    simpl. rewrite <- Hd, Command_of_frame_fields by exact Hid. reflexivity.
Qed.

(** C4: Order: the frames of several commands sent back to back and
    delivered in one segment are read back one per call, in the order
    they were sent, without touching the id counter. *)
Theorem read_messages_in_order (cs : list Command) (rest : list rd_event) (s : script)
    (fuel : nat) (n : Z) :
  Forall (fun c => frame_ok c /\ cmd_id c <> 0) cs -> (1 < fuel)%nat ->
  incoming s = RData (mjoin (map frame_bytes cs)) :: rest ->
  exists s', read_messages fuel (length cs) (Some s) n
             = Some (map (fun c => Ok (Some c)) cs, Some s', n).
Proof.
  intros Hcs Hf. revert s. induction Hcs as [|c cs [Hok Hid] Hcs IH]; intros s E.
  - eexists. reflexivity.
  - simpl in E. change (length (c :: cs)) with (Datatypes.S (length cs)). cbn [read_messages].
    rewrite (readMessage_segment c _ rest s fuel n Hok Hid Hf E).
    destruct cs as [|c' cs'].
    + eexists. reflexivity.
    + destruct (IH (set_incoming s (map RData (after_header (mjoin (map frame_bytes (c' :: cs'))) [])
        ++ rest))) as [s' Hs'].
      { assert (HM : mjoin (map frame_bytes (c' :: cs')) <> []).
        { rewrite map_cons, mjoin_cons. unfold frame_bytes. intros Hn.
          apply (f_equal length) in Hn. rewrite !length_app, length_header_of in Hn.
          unfold header_size in Hn. simpl in Hn. lia. }
        rewrite incoming_set_incoming.
        destruct (mjoin (map frame_bytes (c' :: cs'))); [congruence | reflexivity]. }
      rewrite Hs'. eexists. reflexivity.
Qed.

(** C2: Writing then reading: the bytes [writeMessage] puts on the wire,
    delivered to a reader, are read back as the same command. *)
Theorem write_then_read (c : Command) (w r : script) (fuel : nat) (n : Z) :
  frame_ok c -> cmd_id c <> 0 -> no_error (out_caps w) -> wire w = [] ->
  (length (out_caps w) + 1 < fuel)%nat ->
  exists w', writeMessage fuel (Some w) c = Some (Ok tt, Some w') /\
    readMessage fuel (Some (set_incoming r [RData (wire w')])) n
    = Some (Ok (Some c), Some (set_incoming r []), n).
Proof.
  intros Hok Hid Hne Hw Hf. unfold writeMessage. rewrite frame_buffer_ok by exact Hok.
  destruct (send_loop_script (header_of c ++ cmd_data c) fuel 0 w Hne Hf ltac:(lia))
    as [caps' Hc].
  rewrite Nat.sub_0_r, drop_0 in Hc. rewrite Hc. eexists. split; [reflexivity|].
  unfold set_out. cbn [wire]. rewrite Hw, app_nil_l.
  rewrite (readMessage_segment c [] [] _ fuel n Hok Hid ltac:(lia))
    by (unfold frame_bytes; simpl; rewrite app_nil_r; reflexivity).
  reflexivity.
Qed.

(** ** Witnesses *)

(** A descriptor that [select] rejects: the poll's [ValueError] escapes
    [readMessage] unchanged. *)
Lemma readMessage_error_witness :
  readMessage 3 (Some {| incoming := [RPollError; RData [Byte.x01]]; out_caps := []; wire := [] |}) 100
    = Some (Raise ValueError,
            Some {| incoming := [RData [Byte.x01]]; out_caps := []; wire := [] |}, 100) /\
  (100 = 100 /\
   (ValueError = ClientDisconnected \/
    exists s s1, Some {| incoming := [RPollError; RData [Byte.x01]]; out_caps := []; wire := [] |}
                 = Some s /\ ch_readable s = (Raise ValueError, s1) /\
                 Some {| incoming := [RData [Byte.x01]]; out_caps := []; wire := [] |} = Some s1)).
Proof.
  assert (H : readMessage 3 (Some {| incoming := [RPollError; RData [Byte.x01]]; out_caps := []; wire := [] |}) 100
    = Some (Raise ValueError,
            Some {| incoming := [RData [Byte.x01]]; out_caps := []; wire := [] |}, 100))
    by reflexivity.
  split; [exact H | exact (readMessage_error _ _ _ _ _ _ H)].
Defined.

Lemma readMessage_payload_bound_witness :
  readMessage 3 (Some {| incoming := [RData (frame_bytes (mkCommand TRANSFORM [Byte.x01] 7))];
                         out_caps := []; wire := [] |}) 100
    = Some (Ok (Some (mkCommand TRANSFORM [Byte.x01] 7)),
            Some {| incoming := []; out_caps := []; wire := [] |}, 100) /\
  Z.of_nat (length (cmd_data (mkCommand TRANSFORM [Byte.x01] 7))) < 2 ^ 64.
Proof.
  assert (H : readMessage 3 (Some {| incoming := [RData (frame_bytes (mkCommand TRANSFORM [Byte.x01] 7))];
                         out_caps := []; wire := [] |}) 100
    = Some (Ok (Some (mkCommand TRANSFORM [Byte.x01] 7)),
            Some {| incoming := []; out_caps := []; wire := [] |}, 100)) by reflexivity.
  split; [exact H | exact (readMessage_payload_bound _ _ _ _ _ _ H)].
Defined.

(** A frame with a three-byte payload whose header arrives with the
    first payload byte and whose other two bytes arrive separately. *)
Lemma readMessage_delivers_witness :
  frame_ok (mkCommand TRANSFORM [Byte.x01; Byte.x02; Byte.x03] 7) /\
  cmd_id (mkCommand TRANSFORM [Byte.x01; Byte.x02; Byte.x03] 7) <> 0 /\
  Forall (fun x => x <> []) [[Byte.x02]; [Byte.x03]] /\
  [Byte.x01] ++ mjoin [[Byte.x02]; [Byte.x03]] = [Byte.x01; Byte.x02; Byte.x03] /\
  readMessage 4
    (Some {| incoming := RData (header_of (mkCommand TRANSFORM [Byte.x01; Byte.x02; Byte.x03] 7)
                                ++ [Byte.x01]) :: map RData [[Byte.x02]; [Byte.x03]] ++ [RWait];
             out_caps := []; wire := [] |}) 100
  = Some (Ok (Some (mkCommand TRANSFORM [Byte.x01; Byte.x02; Byte.x03] 7)),
          Some {| incoming := [RWait]; out_caps := []; wire := [] |}, 100).
Proof.
  assert (H1 : frame_ok (mkCommand TRANSFORM [Byte.x01; Byte.x02; Byte.x03] 7))
    by (unfold frame_ok; simpl; lia).
  assert (H2 : cmd_id (mkCommand TRANSFORM [Byte.x01; Byte.x02; Byte.x03] 7) <> 0) by (simpl; lia).
  assert (H3 : Forall (fun x : list byte => x <> []) [[Byte.x02]; [Byte.x03]])
    by (repeat constructor; discriminate).
  assert (H4 : [Byte.x01] ++ mjoin [[Byte.x02]; [Byte.x03]] = [Byte.x01; Byte.x02; Byte.x03])
    by reflexivity.
  split; [exact H1 | split; [exact H2 | split; [exact H3 | split; [exact H4|]]]].
  exact (readMessage_delivers _ [Byte.x01] _ [RWait]
    {| incoming := RData (header_of (mkCommand TRANSFORM [Byte.x01; Byte.x02; Byte.x03] 7)
                          ++ [Byte.x01]) :: map RData [[Byte.x02]; [Byte.x03]] ++ [RWait];
       out_caps := []; wire := [] |} 4 100 H1 H2 H3 H4 ltac:(simpl; lia) eq_refl).
Defined.

Lemma readMessage_split_header_witness :
  (length [Byte.x03; Byte.x00] < header_size)%nat /\
  readMessage 5 (Some {| incoming := [RData [Byte.x03; Byte.x00]; RData [Byte.x00]];
                         out_caps := []; wire := [] |}) 100
  = Some (Raise ClientDisconnected,
          Some {| incoming := [RData [Byte.x00]]; out_caps := []; wire := [] |}, 100).
Proof.
  assert (H : (length [Byte.x03; Byte.x00] < header_size)%nat) by (unfold header_size; simpl; lia).
  split; [exact H|].
  exact (readMessage_split_header _ [RData [Byte.x00]]
    {| incoming := [RData [Byte.x03; Byte.x00]; RData [Byte.x00]]; out_caps := []; wire := [] |}
    5 100 H eq_refl).
Defined.

(** A frame announcing three payload bytes, of which two arrive, in two
    segments, before the connection closes. *)
Lemma readMessage_eof_hangs_witness :
  frame_ok (mkCommand MESH [Byte.x01; Byte.x02; Byte.x03] 7) /\
  Forall (fun x => x <> []) [[Byte.x02]] /\
  (length ([Byte.x01] ++ mjoin [[Byte.x02]])
   < length (cmd_data (mkCommand MESH [Byte.x01; Byte.x02; Byte.x03] 7)))%nat /\
  readMessage 1000
    (Some {| incoming := RData (header_of (mkCommand MESH [Byte.x01; Byte.x02; Byte.x03] 7)
                                ++ [Byte.x01]) :: map RData [[Byte.x02]];
             out_caps := []; wire := [] |}) 100 = None.
Proof.
  assert (H1 : frame_ok (mkCommand MESH [Byte.x01; Byte.x02; Byte.x03] 7))
    by (unfold frame_ok; simpl; lia).
  assert (H2 : Forall (fun x : list byte => x <> []) [[Byte.x02]]) by (repeat constructor; discriminate).
  assert (H3 : (length ([Byte.x01] ++ mjoin [[Byte.x02]])
   < length (cmd_data (mkCommand MESH [Byte.x01; Byte.x02; Byte.x03] 7)))%nat) by (simpl; lia).
  split; [exact H1 | split; [exact H2 | split; [exact H3|]]].
  exact (readMessage_eof_hangs _ _ _
    {| incoming := RData (header_of (mkCommand MESH [Byte.x01; Byte.x02; Byte.x03] 7)
                          ++ [Byte.x01]) :: map RData [[Byte.x02]];
       out_caps := []; wire := [] |} 100 H1 H2 H3 eq_refl 1000).
Defined.

(** A peer that takes 5 bytes, is full once, then takes 3, then
    everything. *)
Lemma writeMessage_sends_witness :
  frame_ok (mkCommand TRANSFORM [Byte.x01] 7) /\
  no_error [WAccept 5; WWait; WAccept 3] /\
  exists caps', writeMessage 10
    (Some {| incoming := []; out_caps := [WAccept 5; WWait; WAccept 3]; wire := [Byte.xff] |})
    (mkCommand TRANSFORM [Byte.x01] 7)
  = Some (Ok tt, Some {| incoming := []; out_caps := caps';
                         wire := [Byte.xff] ++ header_of (mkCommand TRANSFORM [Byte.x01] 7)
                                 ++ [Byte.x01] |}).
Proof.
  assert (H1 : frame_ok (mkCommand TRANSFORM [Byte.x01] 7)) by (unfold frame_ok; simpl; lia).
  assert (H2 : no_error [WAccept 5; WWait; WAccept 3]) by (repeat constructor; discriminate).
  split; [exact H1 | split; [exact H2|]].
  exact (writeMessage_sends _
    {| incoming := []; out_caps := [WAccept 5; WWait; WAccept 3]; wire := [Byte.xff] |}
    10 H1 H2 ltac:(simpl; lia)).
Defined.

Lemma writeMessage_send_error_witness :
  frame_ok (mkCommand TRANSFORM [] 7) /\
  writeMessage 1 (Some {| incoming := []; out_caps := [WError; WAccept 1]; wire := [] |})
    (mkCommand TRANSFORM [] 7)
  = Some (Raise OSError, Some {| incoming := []; out_caps := [WAccept 1]; wire := [] |}).
Proof.
  assert (H1 : frame_ok (mkCommand TRANSFORM [] 7)) by (unfold frame_ok; simpl; lia).
  split; [exact H1|].
  exact (writeMessage_send_error _
    {| incoming := []; out_caps := [WError; WAccept 1]; wire := [] |} [WAccept 1] 1
    H1 eq_refl ltac:(lia)).
Defined.

Lemma writeMessage_stalls_witness :
  (forall s' : stalled_peer, fst (ch_writable s') = Ok false) /\
  frame_ok (mkCommand TRANSFORM [] 7) /\
  writeMessage 50 (Some (StalledPeer 0)) (mkCommand TRANSFORM [] 7) = None.
Proof.
  assert (H1 : forall s' : stalled_peer, fst (ch_writable s') = Ok false) by (intros; reflexivity).
  assert (H2 : frame_ok (mkCommand TRANSFORM [] 7)) by (unfold frame_ok; simpl; lia).
  split; [exact H1 | split; [exact H2 | exact (writeMessage_stalls 50 _ _ H1 H2)]].
Defined.

Lemma write_then_read_witness :
  frame_ok (mkCommand CAMERA [Byte.x01; Byte.x02] 9) /\
  no_error [WAccept 4] /\
  exists w', writeMessage 3 (Some {| incoming := []; out_caps := [WAccept 4]; wire := [] |})
               (mkCommand CAMERA [Byte.x01; Byte.x02] 9) = Some (Ok tt, Some w') /\
    readMessage 3 (Some (set_incoming {| incoming := []; out_caps := []; wire := [] |}
                                      [RData (wire w')])) 100
    = Some (Ok (Some (mkCommand CAMERA [Byte.x01; Byte.x02] 9)),
            Some (set_incoming {| incoming := []; out_caps := []; wire := [] |} []), 100).
Proof.
  assert (H1 : frame_ok (mkCommand CAMERA [Byte.x01; Byte.x02] 9)) by (unfold frame_ok; simpl; lia).
  assert (H2 : no_error [WAccept 4]) by (repeat constructor; discriminate).
  split; [exact H1 | split; [exact H2|]].
  exact (write_then_read _ {| incoming := []; out_caps := [WAccept 4]; wire := [] |}
    {| incoming := []; out_caps := []; wire := [] |} 3 100
    H1 ltac:(simpl; lia) H2 eq_refl ltac:(simpl; lia)).
Defined.

(** Two frames sent back to back in one segment. *)
Lemma read_messages_in_order_witness :
  Forall (fun c => frame_ok c /\ cmd_id c <> 0)
    [mkCommand TRANSFORM [Byte.x01] 7; mkCommand MESH [] 8] /\
  exists s', read_messages 2 2
    (Some {| incoming := [RData (mjoin (map frame_bytes
               [mkCommand TRANSFORM [Byte.x01] 7; mkCommand MESH [] 8]))];
             out_caps := []; wire := [] |}) 100
  = Some ([Ok (Some (mkCommand TRANSFORM [Byte.x01] 7)); Ok (Some (mkCommand MESH [] 8))],
          Some s', 100).
Proof.
  assert (H : Forall (fun c => frame_ok c /\ cmd_id c <> 0)
    [mkCommand TRANSFORM [Byte.x01] 7; mkCommand MESH [] 8])
    by (repeat constructor; unfold frame_ok; simpl; lia).
  split; [exact H|].
  exact (read_messages_in_order _ []
    {| incoming := [RData (mjoin (map frame_bytes
               [mkCommand TRANSFORM [Byte.x01] 7; mkCommand MESH [] 8]))];
       out_caps := []; wire := [] |} 2 100 H ltac:(lia) eq_refl).
Defined.

Lemma readMessage_no_message_witness :
  ch_readable {| incoming := [RWait; RData [Byte.x00]]; out_caps := []; wire := [] |}
    = (Ok false, {| incoming := [RData [Byte.x00]]; out_caps := []; wire := [] |}) /\
  readMessage 1 (Some {| incoming := [RWait; RData [Byte.x00]]; out_caps := []; wire := [] |}) 100
    = Some (Ok None, Some {| incoming := [RData [Byte.x00]]; out_caps := []; wire := [] |}, 100).
Proof.
  assert (H : ch_readable {| incoming := [RWait; RData [Byte.x00]]; out_caps := []; wire := [] |}
    = (Ok false, {| incoming := [RData [Byte.x00]]; out_caps := []; wire := [] |})) by reflexivity.
  split; [exact H | exact (readMessage_no_message 1 _ _ 100 H)].
Defined.

Lemma readMessage_closed_witness :
  incoming {| incoming := []; out_caps := [WWait]; wire := [] |} = [] /\
  readMessage 7 (Some {| incoming := []; out_caps := [WWait]; wire := [] |}) 100
    = Some (Raise ClientDisconnected, Some {| incoming := []; out_caps := [WWait]; wire := [] |}, 100).
Proof.
  assert (H : incoming {| incoming := []; out_caps := [WWait]; wire := [] |} = []) by reflexivity.
  split; [exact H | exact (readMessage_closed _ 7 100 H)].
Defined.
