(* ===== verification/IdRace.v ===== *)
(** * IdRace: concurrent id allocation in [Command.__init__].

    The server runs one thread per connection and every thread builds
    [Command] objects.  For an automatic id, [Command.__init__] (common.py
    lines 224-226) executes
      [self.id = Command._id]    (read the counter),
      [Command._id += 1]         (load the counter, add 1, store it),
    with no lock: the module's [mutex] (line 8) is never taken here.  The
    interpreter may switch threads between these bytecodes, so a
    thread's allocation is three steps:
      [TStart] -read-> [TGot id] -load-> [TLoaded id r] -store-> [TDone id]
    and the world is the counter plus the program point of every thread.
    [step] is the interleaving semantics of that code.

    [locked_step] is the allocation the spec asks for (section 5: the
    counter "must be incremented atomically"): read and increment in one
    step, as they would be under [with mutex:].

    The theorems: under [step] two threads can end with the same id and
    the counter advanced once (a lost update), and with three threads the
    counter can move backwards (a stale store), so the spec's monotone
    counter is not an invariant of the code; under [locked_step] every
    reachable world has distinct ids, all between the initial counter and
    the current one (the spec's contract, stated for reference); and
    every run of [locked_step] is a run of [step]: a thread that runs its
    three steps without being interrupted does exactly what
    [locked_step] does. *)

From Stdlib Require Import ZArith Lia.
From stdpp Require Import base list relations.
From S2P Require Import Prelude.

Open Scope Z_scope.

Inductive tstate :=
  | TStart
  | TGot (id : Z)
  | TLoaded (id r : Z)
  | TDone (id : Z).

#[export] Instance tstate_eq_dec : EqDecision tstate.
Proof. solve_decision. Defined.

Record world := World { counter : Z; threads : list tstate }.

Inductive step : world -> world -> Prop :=
  | step_read (i : nat) (w : world) :
      threads w !! i = Some TStart ->
      step w (World (counter w) (<[i := TGot (counter w)]> (threads w)))
  | step_load (i : nat) (id : Z) (w : world) :
      threads w !! i = Some (TGot id) ->
      step w (World (counter w) (<[i := TLoaded id (counter w)]> (threads w)))
  | step_store (i : nat) (id r : Z) (w : world) :
      threads w !! i = Some (TLoaded id r) ->
      step w (World (r + 1) (<[i := TDone id]> (threads w))).

Inductive locked_step : world -> world -> Prop :=
  | lstep_alloc (i : nat) (w : world) :
      threads w !! i = Some TStart ->
      locked_step w (World (counter w + 1) (<[i := TDone (counter w)]> (threads w))).

(** [n] threads about to allocate, with [Command._id] at [c0]. *)
Definition init (n : nat) (c0 : Z) : world := World c0 (replicate n TStart).

(** The ids the threads that have finished obtained. *)
Fixpoint done_ids (ts : list tstate) : list Z :=
  match ts with
  | [] => []
  | TDone id :: ts' => id :: done_ids ts'
  | _ :: ts' => done_ids ts'
  end.

(** The invariant of atomic allocation: the ids handed out are distinct
    and lie between the initial counter and the current one. *)
Definition alloc_inv (c0 : Z) (w : world) : Prop :=
  NoDup (done_ids (threads w)) /\
  Forall (fun id => c0 <= id < counter w) (done_ids (threads w)) /\ c0 <= counter w.

(** ** The lost update *)

(** Two threads allocating concurrently can both obtain id 100, and the
    counter ends at 101: the interleaving read, read, load, load, store,
    store of the unguarded code. *)
Theorem concurrent_duplicate_id :
  rtc step (init 2 100) (World 101 [TDone 100; TDone 100]).
Proof.
  eapply rtc_l; [apply (step_read 0); reflexivity|]. simpl.
  eapply rtc_l; [apply (step_read 1); reflexivity|]. simpl.
  eapply rtc_l; [apply (step_load 0 100); reflexivity|]. simpl.
  eapply rtc_l; [apply (step_load 1 100); reflexivity|]. simpl.
  eapply rtc_l; [apply (step_store 0 100 100); reflexivity|]. simpl.
  apply rtc_once. apply (step_store 1 100 100). reflexivity.
Qed.

(** C5: Without the lock the ids handed out are not distinct: some world
    the unguarded code reaches from two threads at counter 100 breaks the
    invariant that atomic allocation keeps. *)
Theorem unlocked_ids_not_unique :
  ~ (forall w, rtc step (init 2 100) w -> alloc_inv 100 w).
Proof.
  intros Hall. destruct (Hall _ concurrent_duplicate_id) as [Hnd _].
  simpl in Hnd. inversion Hnd as [|? ? Hin _]. apply Hin. constructor.
Qed.

(** Three threads: the first reads and loads 100, the two others then
    allocate 100 and 101, and the counter is at 102. *)
Lemma stale_store_run :
  rtc step (init 3 100) (World 102 [TLoaded 100 100; TDone 100; TDone 101]).
Proof.
  eapply rtc_l; [apply (step_read 0); reflexivity|]. simpl.
  eapply rtc_l; [apply (step_load 0 100); reflexivity|]. simpl.
  eapply rtc_l; [apply (step_read 1); reflexivity|]. simpl.
  eapply rtc_l; [apply (step_load 1 100); reflexivity|]. simpl.
  eapply rtc_l; [apply (step_store 1 100 100); reflexivity|]. simpl.
  eapply rtc_l; [apply (step_read 2); reflexivity|]. simpl.
  eapply rtc_l; [apply (step_load 2 101); reflexivity|]. simpl.
  apply rtc_once. apply (step_store 2 101 101). reflexivity.
Qed.

(** C6: Without the lock [Command._id] is not monotone, although the spec
    requires it never to decrease: a thread that loaded the counter
    before two other allocations stores its stale value plus one, moving
    the counter back from 102 to 101, so id 101 will be handed out a
    second time. *)
Theorem unlocked_counter_decreases :
  ~ (forall w w', rtc step (init 3 100) w -> step w w' -> counter w <= counter w').
Proof.
  intros Hmono.
  assert (Hs : step (World 102 [TLoaded 100 100; TDone 100; TDone 101])
                    (World 101 [TDone 100; TDone 100; TDone 101]))
    by (apply (step_store 0 100 100); reflexivity).
  specialize (Hmono _ _ stale_store_run Hs). simpl in Hmono. lia.
Qed.

(** ** Atomic allocation *)

Lemma done_ids_replicate_start (n : nat) : done_ids (replicate n TStart) = [].
Proof. induction n; simpl; auto. Qed.

Lemma done_ids_insert_start (ts : list tstate) (i : nat) (x : Z) :
  ts !! i = Some TStart -> done_ids (<[i := TDone x]> ts) ≡ₚ x :: done_ids ts.
Proof.
  revert i. induction ts as [|t ts IH]; intros [|i] Hi; simpl in *; try discriminate.
  - injection Hi as ->. reflexivity.
  - destruct t; rewrite (IH i Hi); [reflexivity..| apply perm_swap].
Qed.

Lemma locked_step_inv (c0 : Z) (w w' : world) :
  alloc_inv c0 w -> locked_step w w' -> alloc_inv c0 w'.
Proof.
  intros Hinv Hs. destruct Hs as [i w0 Hi]. destruct Hinv as (Hnd & Hrange & Hc).
  unfold alloc_inv. simpl.
  rewrite (done_ids_insert_start _ _ _ Hi). split; [|split; [|lia]].
  - constructor; [|exact Hnd]. intros Hin.
    pose proof (proj1 (Forall_forall _ _) Hrange _ Hin). simpl in *. lia.
  - constructor; [lia|]. eapply Forall_impl; [exact Hrange|]. simpl. intros. lia.
Qed.

(** With atomic allocation every reachable world hands out distinct ids,
    all at least the initial counter and below the current counter. *)
Theorem locked_ids_unique (n : nat) (c0 : Z) (w : world) :
  rtc locked_step (init n c0) w -> alloc_inv c0 w.
Proof.
  apply rtc_invariant; [|apply locked_step_inv].
  unfold alloc_inv, init. simpl. rewrite done_ids_replicate_start.
  split; [constructor|]. split; [constructor | lia].
Qed.

(** A thread that runs [Command.__init__]'s three steps without being
    interrupted allocates as the atomic allocation does: the code
    refines the spec when there is no interleaving. *)
Lemma locked_step_sequential (w w' : world) : locked_step w w' -> rtc step w w'.
Proof.
  intros [i w0 Hi]. destruct w0 as [c ts]. simpl in *.
  assert (Hlt : (i < length ts)%nat) by (eapply lookup_lt_Some; exact Hi).
  eapply rtc_l; [apply (step_read i); exact Hi|]. simpl.
  eapply rtc_l; [apply (step_load i c); simpl; apply list_lookup_insert_eq; exact Hlt|]. simpl.
  apply rtc_once.
  replace (<[i:=TDone c]> ts) with (<[i:=TDone c]> (<[i:=TLoaded c c]> ts))
    by apply list_insert_insert_eq.
  replace (<[i:=TLoaded c c]> ts) with (<[i:=TLoaded c c]> (<[i:=TGot c]> ts))
    by apply list_insert_insert_eq.
  apply (step_store i c c (World c _)). simpl.
  apply list_lookup_insert_eq. rewrite length_insert. exact Hlt.
Qed.

(** C25: Every execution of the atomic allocation is an execution of the
    code. *)
Lemma locked_refines (w w' : world) : rtc locked_step w w' -> rtc step w w'.
Proof.
  induction 1 as [|x y z Hxy _ IH]; [reflexivity|].
  eapply rtc_trans; [apply locked_step_sequential, Hxy | exact IH].
Qed.

(** ** Witnesses *)

Lemma locked_refines_witness :
  rtc locked_step (init 2 100) (World 102 [TDone 101; TDone 100]) /\
  rtc step (init 2 100) (World 102 [TDone 101; TDone 100]).
Proof.
  assert (H : rtc locked_step (init 2 100) (World 102 [TDone 101; TDone 100])).
  { eapply rtc_l; [apply (lstep_alloc 1); reflexivity|]. simpl.
    apply rtc_once. apply (lstep_alloc 0 (World 101 [TStart; TDone 100])). reflexivity. }
  split; [exact H | exact (locked_refines _ _ H)].
Defined.
